(** * FinTrader: strategy decision engines and position sizing

    A shallow embedding of the Python sources
      - [Strats/position_sizer.py] ([PositionSizer], [AdaptivePositionSizer]),
      - [Strats/RSI_Strat.py], [Strats/Bol_Strat.py], [Strats/Rand_Strat.py],
    together with the properties of the specification that concern them.

    Conventions of the embedding.
      - A Python [float] is an exact rational ([Q]); statements about numbers
        use [Qeq] ([==]), [Qle] and [Qlt].  Rounding, infinities and NaN are
        outside the model.
      - A Python exception is the [Raise] outcome of [result].
      - A method that mutates [self] is a function from the old object to the
        new one; what it sends to the outside (orders handed to the broker,
        lines printed by [log]) is returned as a list of [event]s.
      - [backtrader] itself is not part of the repository.  What the
        strategies use of it (order status, the executed fill, the trade
        record, the broker queries and [Strategy.buy]/[Strategy.sell]) is
        modelled in [Module Bt], each item with the library behaviour it
        stands for. *)

From Stdlib Require Import String QArith Qabs Qminmax Qround Bool Lia Lqa ZArith
  List.
Import ListNotations.
Open Scope Q_scope.

(* ------------------------------------------------------------------------- *)
(** ** Python values and operators *)
(* ------------------------------------------------------------------------- *)

Module Py.

(** Exceptions the modelled code can raise. *)
Inductive exn : Type :=
| ZeroDivisionError.

(** Outcome of a computation that may raise. *)
Inductive result (A : Type) : Type :=
| Ok (a : A)
| Raise (e : exn).
Arguments Ok {A} a.
Arguments Raise {A} e.

Definition bind {A B : Type} (m : result A) (k : A -> result B) : result B :=
  match m with
  | Ok a => k a
  | Raise e => Raise e
  end.

(** [a < b], [a <= b] and [a == b] on floats, as booleans. *)
Definition ltb (a b : Q) : bool := negb (Qle_bool b a).
Definition leb (a b : Q) : bool := Qle_bool a b.
Definition eqb (a b : Q) : bool := Qeq_bool a b.

(** [a / b]: raises [ZeroDivisionError] when [b] is zero. *)
Definition div (a b : Q) : result Q :=
  if eqb b 0 then Raise ZeroDivisionError else Ok (a / b).

(** The builtins [min(a, b)] and [max(a, b)]: the first argument is kept
    unless the second is strictly smaller (resp. larger). *)
Definition min (a b : Q) : Q := if ltb b a then b else a.
Definition max (a b : Q) : Q := if ltb a b then b else a.

(** [abs(a)]. *)
Definition abs (a : Q) : Q := Qabs a.

(** [sum(l)] of a list of floats. *)
Definition sum (l : list Q) : Q := fold_left Qplus l 0.

(** [len(l)] as a float operand. *)
Definition len (l : list Q) : Q := inject_Z (Z.of_nat (length l)).

(** [l[-n:]]: the last [n] elements of [l] (all of [l] when it is shorter). *)
Definition last_n {A : Type} (n : nat) (l : list A) : list A :=
  skipn (length l - n) l.

(** Truth value of an optional float: [None] and [0.0] are false. *)
Definition truthy (o : option Q) : bool :=
  match o with
  | None => false
  | Some q => negb (eqb q 0)
  end.

(** [int(x)]: truncation towards zero. *)
Definition int (x : Q) : Z := Z.quot (Qnum x) (Z.pos (Qden x)).

End Py.

Notation "x <- m ;; k" := (Py.bind m (fun x => k))
  (at level 61, m at next level, right associativity).

(* ------------------------------------------------------------------------- *)
(** ** [position_sizer.PositionSizer] *)
(* ------------------------------------------------------------------------- *)

Module PositionSizer.
Import Py.

(** [PositionSizer.kelly_criterion] (position_sizer.py, lines 19-62). *)
Definition kelly_criterion
    (win_rate avg_win avg_loss max_leverage fraction : Q) : result Q :=
  if ltb win_rate 0 || ltb 1 win_rate then Ok 0
  else if leb 0 avg_loss || leb avg_win 0 then Ok 0
  else if eqb win_rate 0 then Ok 0
  else
    kelly <- (if eqb win_rate 1 then Ok max_leverage
              else
                r <- div avg_win avg_loss ;;
                let win_loss_ratio := abs r in
                q <- div (1 - win_rate) win_loss_ratio ;;
                Ok (win_rate - q)) ;;
    let kelly := kelly * fraction in
    let kelly := max 0 (min kelly max_leverage) in
    Ok kelly.

(** [PositionSizer.fixed_fractional] (position_sizer.py, lines 65-75). *)
Definition fixed_fractional (fraction : Q) : Q :=
  max 0 (min fraction 1).

End PositionSizer.

(* ------------------------------------------------------------------------- *)
(** ** The [backtrader] interface used by the strategies *)
(* ------------------------------------------------------------------------- *)

Module Bt.
Import Py.

(** Modelled from the spec: the order status enumeration ([backtrader]'s
    [Order.Status] is not in the repository).  Section 3 of the
    specification gives it as
    {Submitted, Accepted, Completed, Canceled, Margin, Rejected}. *)
Inductive Status : Type :=
| Submitted | Accepted | Completed | Canceled | Margin | Rejected.

(** [order.executed]: the fill reported with a notification.  As in
    [backtrader], [ex_size] is signed: positive for a buy, negative for a
    sell. *)
Record Executed : Type := {
  ex_price : Q;
  ex_size : Q;
  ex_comm : Q;
  ex_value : Q
}.

(** The order object as [notify_order] reads it. *)
Record Order : Type := {
  status : Status;
  isbuy : bool;
  executed : Executed
}.

(** The trade object as [notify_trade] reads it. *)
Record Trade : Type := {
  isclosed : bool;
  pnl : Q;
  pnlcomm : Q;
  value : Q
}.

(** What a strategy reads from its broker and its position on a bar:
    [self.broker.get_cash()], [self.broker.getvalue()] and
    [self.position.size]. *)
Record Account : Type := {
  get_cash : Q;
  getvalue : Q;
  position : Q
}.

(** [not self.position]: a position is false when its size is zero. *)
Definition flat (a : Account) : bool := eqb (position a) 0.

Inductive Side : Type := Buy | Sell.

(** What [self.buy] / [self.sell] return and [self.order] holds: the
    handle of an order given to the broker. *)
Record Handle : Type := {
  h_side : Side;
  h_size : Q
}.

(** The reason string built on the exit path of [Bol_Strat.next]. *)
Inductive ExitReason : Type :=
| NoReason                              (* the empty string *)
| UpperBand (price top : Q)             (* Price .. > Upper Band .. *)
| MiddleBand (price mid : Q)            (* Price .. > Middle Band .. *)
| StopLoss (price stop_price : Q)       (* Stop Loss: Price .. < .. *)
| TakeProfit (price target_price : Q).  (* Take Profit: Price .. > .. *)

(** The lines the strategies print through [self.log], by their leading
    text, with the numbers they format.  The date prefix is left out. *)
Inductive LogLine : Type :=
| BUY_EXECUTED (args : list Q)
| SELL_EXECUTED (args : list Q)
| ORDER_CANCELED_MARGIN_REJECTED
| TRADE_PROFIT (args : list Q)
| KELLY (args : list Q)
| KELLY_RETURNED_0 (win_rate : Q)
| USING_FIXED_SIZE (need : Z)
| BUY_SIGNAL (args : list Q)
| SELL_SIGNAL (args : list Q)
| SELL_SIGNAL_REASON (exit_reason : ExitReason)
| RANDOM_BUY_SIGNAL
| RANDOM_SELL_SIGNAL.

(** What a handler sends to the outside. *)
Inductive event : Type :=
| Submit (h : Handle)       (* an order handed to the broker *)
| Log (line : LogLine).     (* a line printed by [self.log] *)

(** [if self.params.printlog: self.log(...)]. *)
Definition log_if (printlog : bool) (line : LogLine) : list event :=
  if printlog then [Log line] else [].

(** [Strategy.buy(size=size)] and [Strategy.sell(size=size)]: when [size]
    is zero no order is created and [None] is returned; otherwise an order
    of [abs(size)] goes to the broker and its handle is returned. *)
Definition place (s : Side) (size : Q) : option Handle * list event :=
  if eqb size 0 then (None, [])
  else let h := {| h_side := s; h_size := abs size |} in (Some h, [Submit h]).

Definition buy (size : Q) : option Handle * list event := place Buy size.
Definition sell (size : Q) : option Handle * list event := place Sell size.

(** The orders among a list of events. *)
Fixpoint submitted (evs : list event) : list Handle :=
  match evs with
  | [] => []
  | Submit h :: evs' => h :: submitted evs'
  | Log _ :: evs' => submitted evs'
  end.

End Bt.

(* ------------------------------------------------------------------------- *)
(** ** The rolling trade-outcome history *)
(* ------------------------------------------------------------------------- *)

(** [RSI_Strat.notify_trade] (RSI_Strat.py, lines 76-88),
    [Bol_Strat.notify_trade] (Bol_Strat.py, lines 82-94) and
    [AdaptivePositionSizer.notify_trade] (position_sizer.py, lines 144-156)
    run the same statements on [self.wins] and [self.losses]; they are
    embedded once, on the pair of lists. *)
Module TradeHistory.
Import Py.

Record t : Type := {
  wins : list Q;
  losses : list Q
}.

(** [self.wins = []; self.losses = []]. *)
Definition empty : t := {| wins := []; losses := [] |}.

(** [trade.pnlcomm / abs(trade.value) if trade.value != 0 else 0].  The
    division is only reached with a non-zero divisor, so it is written
    with the total [/] (see [HistoryFacts.trade_return_div]). *)
Definition trade_return (tr : Bt.Trade) : Q :=
  if negb (eqb (Bt.value tr) 0) then Bt.pnlcomm tr / abs (Bt.value tr) else 0.

(** [if len(l) > 100: l = l[-100:]]. *)
Definition cap (l : list Q) : list Q :=
  if (100 <? length l)%nat then last_n 100 l else l.

(** The statements after the [isclosed] guard. *)
Definition record (tr : Bt.Trade) (h : t) : t :=
  let trade_return := trade_return tr in
  let h1 :=
    if ltb 0 (Bt.pnlcomm tr)
    then {| wins := wins h ++ [trade_return]; losses := losses h |}
    else {| wins := wins h; losses := losses h ++ [trade_return] |} in
  {| wins := cap (wins h1); losses := cap (losses h1) |}.

End TradeHistory.

(* ------------------------------------------------------------------------- *)
(** ** [RSI_Strat] *)
(* ------------------------------------------------------------------------- *)

Module RSI_Strat.
Import Py Bt.

(** [RSI_Strat.params] (RSI_Strat.py, lines 14-25). *)
Record Params : Type := {
  rsi_period : Z;
  rsi_oversold : Q;
  rsi_overbought : Q;
  position_method : string;
  position_size : Q;
  kelly_fraction : Q;
  printlog : bool
}.

(** The defaults of the class. *)
Definition default_params : Params := {|
  rsi_period := 14;
  rsi_oversold := 20;
  rsi_overbought := 80;
  position_method := "fixed"%string;
  position_size := 2 # 100;
  kelly_fraction := 25 # 100;
  printlog := false
|}.

(** The attributes that [__init__] sets on the strategy object. *)
Record State : Type := {
  order : option Handle;
  buy_price : option Q;
  buy_comm : option Q;
  history : TradeHistory.t;
  min_trades_for_kelly : nat
}.

(** The bar as [next] reads it: [self.data.close[0]] and [self.rsi[0]]. *)
Record Bar : Type := {
  close : Q;
  rsi : Q
}.

(** [RSI_Strat.__init__] (lines 27-43). *)
Definition init : State := {|
  order := None;
  buy_price := None;
  buy_comm := None;
  history := TradeHistory.empty;
  min_trades_for_kelly := 20
|}.

Definition set_order (o : option Handle) (self : State) : State := {|
  order := o;
  buy_price := buy_price self;
  buy_comm := buy_comm self;
  history := history self;
  min_trades_for_kelly := min_trades_for_kelly self
|}.

Definition set_buy (price comm : Q) (self : State) : State := {|
  order := order self;
  buy_price := Some price;
  buy_comm := Some comm;
  history := history self;
  min_trades_for_kelly := min_trades_for_kelly self
|}.

Definition set_history (h : TradeHistory.t) (self : State) : State := {|
  order := order self;
  buy_price := buy_price self;
  buy_comm := buy_comm self;
  history := h;
  min_trades_for_kelly := min_trades_for_kelly self
|}.

(** [RSI_Strat.notify_order] (lines 45-69). *)
Definition notify_order (p : Params) (o : Order) (self : State)
  : State * list event :=
  match status o with
  | Submitted | Accepted => (self, [])
  | Completed =>
      let ex := executed o in
      if isbuy o then
        let self := set_buy (ex_price ex) (ex_comm ex) self in
        (set_order None self,
         log_if (printlog p)
           (BUY_EXECUTED [ex_price ex; ex_value ex; ex_comm ex]))
      else
        (set_order None self,
         log_if (printlog p)
           (SELL_EXECUTED [ex_price ex; ex_value ex; ex_comm ex]))
  | Canceled | Margin | Rejected =>
      (set_order None self, log_if (printlog p) ORDER_CANCELED_MARGIN_REJECTED)
  end.

(** [RSI_Strat.notify_trade] (lines 71-91). *)
Definition notify_trade (p : Params) (tr : Trade) (self : State)
  : State * list event :=
  if negb (isclosed tr) then (self, [])
  else
    (set_history (TradeHistory.record tr (history self)) self,
     log_if (printlog p) (TRADE_PROFIT [pnl tr; pnlcomm tr])).

(** [RSI_Strat.calculate_position_size] (lines 93-142): the size and the
    lines it logs. *)
Definition calculate_position_size
    (p : Params) (a : Account) (b : Bar) (self : State)
  : result (Q * list event) :=
  let cash := get_cash a in
  let portfolio_value := getvalue a in
  let current_price := close b in
  let wins := TradeHistory.wins (history self) in
  let losses := TradeHistory.losses (history self) in
  if String.eqb (position_method p) "kelly"%string then
    let total_trades := (length wins + length losses)%nat in
    if (min_trades_for_kelly self <=? total_trades)%nat then
      win_rate <- div (len wins) (inject_Z (Z.of_nat total_trades)) ;;
      avg_win <- (match wins with
                  | [] => Ok (2 # 100)
                  | _ => div (sum wins) (len wins)
                  end) ;;
      avg_loss <- (match losses with
                   | [] => Ok (- (15 # 1000))
                   | _ => div (sum losses) (len losses)
                   end) ;;
      kelly_fraction <-
        PositionSizer.kelly_criterion win_rate avg_win avg_loss 1
          (kelly_fraction p) ;;
      if ltb 0 kelly_fraction then
        let position_value := portfolio_value * kelly_fraction in
        size <- div position_value current_price ;;
        Ok (size,
            log_if (printlog p)
              (KELLY [win_rate; avg_win; avg_loss; kelly_fraction]))
      else
        size <- div (cash * position_size p) current_price ;;
        Ok (size, log_if (printlog p) (KELLY_RETURNED_0 win_rate))
    else
      size <- div (cash * position_size p) current_price ;;
      Ok (size,
          log_if (printlog p)
            (USING_FIXED_SIZE
               (Z.of_nat (min_trades_for_kelly self) - Z.of_nat total_trades)))
  else
    size <- div (cash * position_size p) current_price ;;
    Ok (size, []).

(** [RSI_Strat.next] (lines 144-171). *)
Definition next (p : Params) (a : Account) (b : Bar) (self : State)
  : result (State * list event) :=
  match order self with
  | Some _ => Ok (self, [])
  | None =>
      let current_rsi := rsi b in
      if flat a then
        if ltb current_rsi (rsi_oversold p) then
          sz <- calculate_position_size p a b self ;;
          let '(size, logs) := sz in
          let '(o, evs) := buy size in
          Ok (set_order o self,
              logs ++ evs ++
              log_if (printlog p)
                (BUY_SIGNAL [current_rsi; rsi_oversold p; size]))
        else Ok (self, [])
      else
        if ltb (rsi_overbought p) current_rsi then
          let '(o, evs) := sell (position a) in
          Ok (set_order o self,
              evs ++
              log_if (printlog p)
                (SELL_SIGNAL [current_rsi; rsi_overbought p]))
        else Ok (self, [])
  end.

End RSI_Strat.

(* ------------------------------------------------------------------------- *)
(** ** [Bol_Strat] *)
(* ------------------------------------------------------------------------- *)

Module Bol_Strat.
Import Py Bt.

(** [Bol_Strat.params] (Bol_Strat.py, lines 14-27).  [None] for a
    percentage disables it. *)
Record Params : Type := {
  bb_period : Z;
  bb_devfactor : Q;
  position_method : string;
  position_size : Q;
  kelly_fraction : Q;
  exit_on_middle : bool;
  stop_loss_pct : option Q;
  take_profit_pct : option Q;
  printlog : bool
}.

(** The defaults of the class. *)
Definition default_params : Params := {|
  bb_period := 20;
  bb_devfactor := 2;
  position_method := "fixed"%string;
  position_size := 2 # 100;
  kelly_fraction := 25 # 100;
  exit_on_middle := true;
  stop_loss_pct := None;
  take_profit_pct := None;
  printlog := false
|}.

(** The attributes that [__init__] sets on the strategy object. *)
Record State : Type := {
  order : option Handle;
  entry_price : option Q;
  entry_comm : option Q;
  history : TradeHistory.t;
  min_trades_for_kelly : nat
}.

(** The bar as [next] reads it: [self.data.close[0]] and the three bands
    [self.bb_top[0]], [self.bb_mid[0]], [self.bb_bot[0]]. *)
Record Bar : Type := {
  close : Q;
  bb_top : Q;
  bb_mid : Q;
  bb_bot : Q
}.

(** [Bol_Strat.__init__] (lines 29-51). *)
Definition init : State := {|
  order := None;
  entry_price := None;
  entry_comm := None;
  history := TradeHistory.empty;
  min_trades_for_kelly := 20
|}.

Definition set_order (o : option Handle) (self : State) : State := {|
  order := o;
  entry_price := entry_price self;
  entry_comm := entry_comm self;
  history := history self;
  min_trades_for_kelly := min_trades_for_kelly self
|}.

Definition set_entry_price (e : option Q) (self : State) : State := {|
  order := order self;
  entry_price := e;
  entry_comm := entry_comm self;
  history := history self;
  min_trades_for_kelly := min_trades_for_kelly self
|}.

Definition set_entry_comm (c : option Q) (self : State) : State := {|
  order := order self;
  entry_price := entry_price self;
  entry_comm := c;
  history := history self;
  min_trades_for_kelly := min_trades_for_kelly self
|}.

Definition set_history (h : TradeHistory.t) (self : State) : State := {|
  order := order self;
  entry_price := entry_price self;
  entry_comm := entry_comm self;
  history := h;
  min_trades_for_kelly := min_trades_for_kelly self
|}.

(** [Bol_Strat.notify_order] (lines 53-75). *)
Definition notify_order (p : Params) (o : Order) (self : State)
  : State * list event :=
  match status o with
  | Submitted | Accepted => (self, [])
  | Completed =>
      let ex := executed o in
      if isbuy o then
        let self := set_entry_price (Some (ex_price ex)) self in
        let self := set_entry_comm (Some (ex_comm ex)) self in
        (set_order None self,
         log_if (printlog p)
           (BUY_EXECUTED [ex_price ex; ex_size ex; ex_comm ex]))
      else
        let self := set_entry_price None self in
        (set_order None self,
         log_if (printlog p)
           (SELL_EXECUTED [ex_price ex; ex_size ex; ex_comm ex]))
  | Canceled | Margin | Rejected =>
      (set_order None self, log_if (printlog p) ORDER_CANCELED_MARGIN_REJECTED)
  end.

(** [Bol_Strat.notify_trade] (lines 77-97). *)
Definition notify_trade (p : Params) (tr : Trade) (self : State)
  : State * list event :=
  if negb (isclosed tr) then (self, [])
  else
    (set_history (TradeHistory.record tr (history self)) self,
     log_if (printlog p) (TRADE_PROFIT [pnl tr; pnlcomm tr])).

(** [Bol_Strat.calculate_position_size] (lines 99-145): the size and the
    lines it logs. *)
Definition calculate_position_size
    (p : Params) (a : Account) (b : Bar) (self : State)
  : result (Q * list event) :=
  let cash := get_cash a in
  let portfolio_value := getvalue a in
  let current_price := close b in
  let wins := TradeHistory.wins (history self) in
  let losses := TradeHistory.losses (history self) in
  if String.eqb (position_method p) "kelly"%string then
    let total_trades := (length wins + length losses)%nat in
    if (min_trades_for_kelly self <=? total_trades)%nat then
      win_rate <- div (len wins) (inject_Z (Z.of_nat total_trades)) ;;
      avg_win <- (match wins with
                  | [] => Ok (2 # 100)
                  | _ => div (sum wins) (len wins)
                  end) ;;
      avg_loss <- (match losses with
                   | [] => Ok (- (15 # 1000))
                   | _ => div (sum losses) (len losses)
                   end) ;;
      kelly_fraction <-
        PositionSizer.kelly_criterion win_rate avg_win avg_loss 1
          (kelly_fraction p) ;;
      if ltb 0 kelly_fraction then
        let position_value := portfolio_value * kelly_fraction in
        size <- div position_value current_price ;;
        Ok (size, log_if (printlog p) (KELLY [win_rate; kelly_fraction]))
      else
        size <- div (cash * position_size p) current_price ;;
        Ok (size, log_if (printlog p) (KELLY_RETURNED_0 win_rate))
    else
      size <- div (cash * position_size p) current_price ;;
      Ok (size, [])
  else
    size <- div (cash * position_size p) current_price ;;
    Ok (size, []).

(** The value of a parameter or attribute that tested true. *)
Definition val (o : option Q) : Q :=
  match o with
  | Some q => q
  | None => 0
  end.

(** The exit conditions of [Bol_Strat.next] (lines 168-193): the values of
    [should_exit] and [exit_reason] after the [if]/[elif] chain.  The
    divisions are by the literal [100]. *)
Definition exit_check (p : Params) (b : Bar) (self : State)
  : bool * ExitReason :=
  let current_price := close b in
  if ltb (bb_top b) current_price then
    (true, UpperBand current_price (bb_top b))
  else if exit_on_middle p && ltb (bb_mid b) current_price then
    (true, MiddleBand current_price (bb_mid b))
  else if truthy (stop_loss_pct p) && truthy (entry_price self) then
    let stop_price :=
      val (entry_price self) * (1 - val (stop_loss_pct p) / 100) in
    if ltb current_price stop_price
    then (true, StopLoss current_price stop_price)
    else (false, NoReason)
  else if truthy (take_profit_pct p) && truthy (entry_price self) then
    let target_price :=
      val (entry_price self) * (1 + val (take_profit_pct p) / 100) in
    if ltb target_price current_price
    then (true, TakeProfit current_price target_price)
    else (false, NoReason)
  else (false, NoReason).

(** [Bol_Strat.next] (lines 147-199). *)
Definition next (p : Params) (a : Account) (b : Bar) (self : State)
  : result (State * list event) :=
  match order self with
  | Some _ => Ok (self, [])
  | None =>
      let current_price := close b in
      if flat a then
        if ltb current_price (bb_bot b) then
          sz <- calculate_position_size p a b self ;;
          let '(size, logs) := sz in
          let '(o, evs) := buy size in
          Ok (set_order o self,
              logs ++ evs ++
              log_if (printlog p)
                (BUY_SIGNAL [current_price; bb_bot b; size]))
        else Ok (self, [])
      else
        let '(should_exit, exit_reason) := exit_check p b self in
        if should_exit then
          let '(o, evs) := sell (position a) in
          Ok (set_order o self,
              evs ++ log_if (printlog p) (SELL_SIGNAL_REASON exit_reason))
        else Ok (self, [])
  end.

End Bol_Strat.

(* ------------------------------------------------------------------------- *)
(** ** Python's [random] module *)
(* ------------------------------------------------------------------------- *)

Module PyRandom.

(** The generator behind [random.seed] and [random.random] (the Mersenne
    Twister of the interpreter) is not part of the repository: it is a
    parameter.  [gen] is the state of the one generator that the module
    [random] keeps for the whole process; [seed x] is the state after
    [random.seed(x)]; [random g] is the value drawn by [random.random()]
    and the state after the draw. *)
Record Generator : Type := {
  gen : Type;
  seed : Z -> gen;
  random : gen -> Q * gen
}.

End PyRandom.

(* ------------------------------------------------------------------------- *)
(** ** [Rand_Strat] *)
(* ------------------------------------------------------------------------- *)

Module Rand_Strat.
Import Py Bt.

(** [Rand_Strat.params] (Rand_Strat.py, lines 13-19). *)
Record Params : Type := {
  trade_probability : Q;
  position_size : Q;
  hold_bars : Z;
  seed : option Z;
  printlog : bool
}.

(** The defaults of the class. *)
Definition default_params : Params := {|
  trade_probability := 1 # 100;
  position_size := 2 # 100;
  hold_bars := 10;
  seed := None;
  printlog := false
|}.

(** The attributes that [__init__] sets on the strategy object. *)
Record State : Type := {
  order : option Handle;
  bar_count_in_position : Z
}.

(** The bar as [next] reads it: [self.data.close[0]]. *)
Record Bar : Type := {
  close : Q
}.

Definition set_order (o : option Handle) (self : State) : State := {|
  order := o;
  bar_count_in_position := bar_count_in_position self
|}.

Definition set_bar_count (n : Z) (self : State) : State := {|
  order := order self;
  bar_count_in_position := n
|}.

Section WithGenerator.
Variable R : PyRandom.Generator.

(** [Rand_Strat.__init__] (lines 21-29): the new object, and the state of
    the process-wide generator after the call ([g] before it). *)
Definition init (p : Params) (g : PyRandom.gen R) : State * PyRandom.gen R :=
  let g :=
    match seed p with
    | Some x => PyRandom.seed R x
    | None => g
    end in
  ({| order := None; bar_count_in_position := 0 |}, g).

(** [Rand_Strat.next] (lines 59-90), with the state of the process-wide
    generator before and after the call. *)
Definition next (p : Params) (a : Account) (b : Bar)
    (self : State) (g : PyRandom.gen R)
  : result (State * PyRandom.gen R * list event) :=
  match order self with
  | Some _ => Ok (self, g, [])
  | None =>
      let self :=
        if negb (flat a)
        then set_bar_count (bar_count_in_position self + 1) self
        else self in
      let '(u, g) := PyRandom.random R g in
      let should_trade := ltb u (trade_probability p) in
      if negb should_trade then Ok (self, g, [])
      else if flat a then
        let cash := get_cash a in
        size <- div (cash * position_size p) (close b) ;;
        let '(o, evs) := buy size in
        Ok (set_order o self, g,
            evs ++ log_if (printlog p) RANDOM_BUY_SIGNAL)
      else
        if (hold_bars p <=? bar_count_in_position self)%Z then
          let '(o, evs) := sell (position a) in
          Ok (set_order o self, g,
              evs ++ log_if (printlog p) RANDOM_SELL_SIGNAL)
        else Ok (self, g, [])
  end.

End WithGenerator.

(** [Rand_Strat.notify_order] (lines 31-49). *)
Definition notify_order (p : Params) (o : Order) (self : State)
  : State * list event :=
  match status o with
  | Submitted | Accepted => (self, [])
  | Completed =>
      let ex := executed o in
      if isbuy o then
        let self := set_bar_count 0 self in
        (set_order None self,
         log_if (printlog p) (BUY_EXECUTED [ex_price ex]))
      else
        (set_order None self,
         log_if (printlog p) (SELL_EXECUTED [ex_price ex]))
  | Canceled | Margin | Rejected =>
      (set_order None self, log_if (printlog p) ORDER_CANCELED_MARGIN_REJECTED)
  end.

(** [Rand_Strat.notify_trade] (lines 51-57). *)
Definition notify_trade (p : Params) (tr : Trade) (self : State)
  : State * list event :=
  if negb (isclosed tr) then (self, [])
  else (self, log_if (printlog p) (TRADE_PROFIT [pnlcomm tr])).

End Rand_Strat.

(* ------------------------------------------------------------------------- *)
(** ** [position_sizer.AdaptivePositionSizer] *)
(* ------------------------------------------------------------------------- *)

Module AdaptivePositionSizer.
Import Py Bt.

(** [AdaptivePositionSizer.params] (position_sizer.py, lines 85-92). *)
Record Params : Type := {
  method : string;
  kelly_fraction : Q;
  fixed_size : Q;
  min_trades : Z;
  max_position : Q;
  min_position : Q
}.

(** The defaults of the class. *)
Definition default_params : Params := {|
  method := "kelly"%string;
  kelly_fraction := 25 # 100;
  fixed_size := 1 # 10;
  min_trades := 20;
  max_position := 3 # 10;
  min_position := 5 # 100
|}.

(** The attributes of the sizer: its own [wins] and [losses]. *)
Definition State : Type := TradeHistory.t.

(** [AdaptivePositionSizer.__init__] (lines 94-97). *)
Definition init : State := TradeHistory.empty.

(** Lines 110-129 of [_getsizing]: the value of [position_fraction] after
    the clamp to [min_position, max_position].  [np.mean(l)] of a non-empty
    list is [sum(l) / len(l)]. *)
Definition position_fraction (p : Params) (self : State) : result Q :=
  let wins := TradeHistory.wins self in
  let losses := TradeHistory.losses self in
  position_fraction <-
    (if String.eqb (method p) "kelly"%string
        && (min_trades p <=? Z.of_nat (length wins + length losses))%Z
     then
       let total_trades := (length wins + length losses)%nat in
       win_rate <- (if (0 <? total_trades)%nat
                    then div (len wins) (inject_Z (Z.of_nat total_trades))
                    else Ok (1 # 2)) ;;
       avg_win <- (match wins with
                   | [] => Ok (2 # 100)
                   | _ => div (sum wins) (len wins)
                   end) ;;
       avg_loss <- (match losses with
                    | [] => Ok (- (15 # 1000))
                    | _ => div (sum losses) (len losses)
                    end) ;;
       PositionSizer.kelly_criterion win_rate avg_win avg_loss
         (max_position p) (kelly_fraction p)
     else Ok (fixed_size p)) ;;
  Ok (max (min_position p) (min position_fraction (max_position p))).

(** [AdaptivePositionSizer._getsizing] (lines 99-135).  [a] gives
    [self.broker.getvalue()] and [self.strategy.position.size], [close] is
    [data.close[0]].  The buy branch returns an [int]. *)
Definition _getsizing (p : Params) (self : State)
    (a : Account) (close : Q) (isbuy : bool) : result Q :=
  if negb isbuy then Ok (position a)
  else
    let portfolio_value := getvalue a in
    position_fraction <- position_fraction p self ;;
    let position_value := portfolio_value * position_fraction in
    size <- div position_value close ;;
    Ok (inject_Z (int size)).

(** [AdaptivePositionSizer.notify_trade] (lines 137-156). *)
Definition notify_trade (tr : Trade) (self : State) : State :=
  if negb (isclosed tr) then self
  else TradeHistory.record tr self.

End AdaptivePositionSizer.

(* ------------------------------------------------------------------------- *)
(** ** A strategy driven by its broker *)
(* ------------------------------------------------------------------------- *)

(** The three strategy classes are subclasses of [bt.Strategy]: the driver
    calls [next] on each bar and [notify_order] / [notify_trade] when the
    broker has news.  [Lifecycle] puts a strategy object together with the
    part of the broker that its decisions depend on: the position it holds
    for the strategy and the orders it was given that are not yet resolved. *)
Module Lifecycle.
Import Py Bt.

(** The interface of a strategy; [pending] is [self.order]. *)
Record Strategy : Type := {
  St : Type;
  Bar : Type;
  pending : St -> option Handle;
  on_bar : Account -> Bar -> St -> result (St * list event);
  on_order : Order -> St -> St * list event;
  on_trade : Trade -> St -> St * list event
}.

Definition RSI (p : RSI_Strat.Params) : Strategy := {|
  St := RSI_Strat.State;
  Bar := RSI_Strat.Bar;
  pending := RSI_Strat.order;
  on_bar := RSI_Strat.next p;
  on_order := RSI_Strat.notify_order p;
  on_trade := RSI_Strat.notify_trade p
|}.

Definition Bol (p : Bol_Strat.Params) : Strategy := {|
  St := Bol_Strat.State;
  Bar := Bol_Strat.Bar;
  pending := Bol_Strat.order;
  on_bar := Bol_Strat.next p;
  on_order := Bol_Strat.notify_order p;
  on_trade := Bol_Strat.notify_trade p
|}.

(** [Rand_Strat] draws from the generator of the process, which is carried
    along with the object. *)
Definition Rand (R : PyRandom.Generator) (p : Rand_Strat.Params) : Strategy := {|
  St := Rand_Strat.State * PyRandom.gen R;
  Bar := Rand_Strat.Bar;
  pending := fun s => Rand_Strat.order (fst s);
  on_bar := fun a b s =>
    r <- Rand_Strat.next R p a b (fst s) (snd s) ;;
    let '(self, g, evs) := r in Ok ((self, g), evs);
  on_order := fun o s =>
    let '(self, evs) := Rand_Strat.notify_order p o (fst s) in
    ((self, snd s), evs);
  on_trade := fun t s =>
    let '(self, evs) := Rand_Strat.notify_trade p t (fst s) in
    ((self, snd s), evs)
|}.

Section Driver.
Variable E : Strategy.

Record World : Type := {
  eng : St E;           (* the strategy object *)
  pos : Q;              (* [self.position.size], kept by the broker *)
  book : list Handle    (* orders submitted and not yet resolved *)
}.

(** What the driver delivers.  An order notification is about the
    [n]-th open order of the book. *)
Inductive Input : Type :=
| OnBar (cash value : Q) (b : Bar E)
| OnOrder (n : nat) (st : Status) (price comm : Q)
| OnTrade (t : Trade).

(** The signed size of the fill of an order. *)
Definition fill (h : Handle) : Q :=
  match h_side h with
  | Buy => h_size h
  | Sell => - h_size h
  end.

Definition is_buy (h : Handle) : bool :=
  match h_side h with
  | Buy => true
  | Sell => false
  end.

Fixpoint remove_nth (n : nat) (l : list Handle) : list Handle :=
  match n, l with
  | _, [] => []
  | O, _ :: l' => l'
  | S n', h :: l' => h :: remove_nth n' l'
  end.

(** The order object of a notification about [h]. *)
Definition notice (h : Handle) (st : Status) (price comm : Q) : Order := {|
  status := st;
  isbuy := is_buy h;
  executed := {| ex_price := price;
                 ex_size := fill h;
                 ex_comm := comm;
                 ex_value := price * h_size h |}
|}.

(** One delivery.  [None]: the input cannot occur (a notification for an
    order that is not open) or the strategy raised.
    - A bar: [next] runs against the current position; the orders it
      submits join the book.
    - [Submitted], [Accepted]: the order stays open.
    - [Completed]: the order is filled, the position moves by the fill,
      the order leaves the book.
    - [Canceled], [Margin], [Rejected]: the order leaves the book, the
      position stays. *)
Definition step (i : Input) (w : World) : option World :=
  match i with
  | OnBar cash value b =>
      let a := {| get_cash := cash; getvalue := value; position := pos w |} in
      match on_bar E a b (eng w) with
      | Ok (e, evs) =>
          Some {| eng := e; pos := pos w; book := book w ++ submitted evs |}
      | Raise _ => None
      end
  | OnOrder n st price comm =>
      match nth_error (book w) n with
      | None => None
      | Some h =>
          let e := fst (on_order E (notice h st price comm) (eng w)) in
          match st with
          | Submitted | Accepted =>
              Some {| eng := e; pos := pos w; book := book w |}
          | Completed =>
              Some {| eng := e; pos := pos w + fill h;
                      book := remove_nth n (book w) |}
          | Canceled | Margin | Rejected =>
              Some {| eng := e; pos := pos w;
                      book := remove_nth n (book w) |}
          end
      end
  | OnTrade t =>
      Some {| eng := fst (on_trade E t (eng w)); pos := pos w; book := book w |}
  end.

Fixpoint run (inputs : list Input) (w : World) : option World :=
  match inputs with
  | [] => Some w
  | i :: rest =>
      match step i w with
      | Some w' => run rest w'
      | None => None
      end
  end.

(** A freshly constructed strategy: no position, no open order. *)
Definition start (e : St E) : World := {| eng := e; pos := 0; book := [] |}.

(** The worlds that a run from a fresh strategy [e] can be in. *)
Definition reachable (e : St E) (w : World) : Prop :=
  exists inputs, run inputs (start e) = Some w.

End Driver.

Arguments eng {E} w.
Arguments pos {E} w.
Arguments book {E} w.
Arguments OnBar {E} cash value b.
Arguments OnOrder {E} n st price comm.
Arguments OnTrade {E} t.

End Lifecycle.

(* ------------------------------------------------------------------------- *)
(** ** Two [Rand_Strat] objects in one process *)
(* ------------------------------------------------------------------------- *)

Module TwoRuns.
Import Py Bt.

(** What one strategy object is fed. *)
Inductive Input : Type :=
| Bar (a : Account) (b : Rand_Strat.Bar)
| OrderNote (o : Order)
| TradeNote (t : Trade).

Section WithGenerator.
Variable R : PyRandom.Generator.
Variable p : Rand_Strat.Params.

Local Abbreviation gen := (PyRandom.gen R).

(** One object handles one input; [g] is the generator of the process. *)
Definition handle (i : Input) (self : Rand_Strat.State) (g : gen)
  : result (Rand_Strat.State * gen * list event) :=
  match i with
  | Bar a b => Rand_Strat.next R p a b self g
  | OrderNote o =>
      let '(self, evs) := Rand_Strat.notify_order p o self in Ok (self, g, evs)
  | TradeNote t =>
      let '(self, evs) := Rand_Strat.notify_trade p t self in Ok (self, g, evs)
  end.

(** The buy/sell decisions of one object over its inputs, one entry per
    input, and the generator left behind. *)
Fixpoint decisions (inputs : list Input) (self : Rand_Strat.State) (g : gen)
  : result (list (list Handle) * gen) :=
  match inputs with
  | [] => Ok ([], g)
  | i :: rest =>
      r <- handle i self g ;;
      let '(self, g, evs) := r in
      r' <- decisions rest self g ;;
      let '(ds, g) := r' in
      Ok (submitted evs :: ds, g)
  end.

(** Construct an object and run it over its inputs. *)
Definition run_alone (inputs : list Input) (g : gen)
  : result (list (list Handle) * gen) :=
  let '(self, g) := Rand_Strat.init R p g in
  decisions inputs self g.

(** Two objects, one after the other: the second is constructed when the
    first has finished. *)
Definition run_sequential (inputs : list Input) (g : gen)
  : result (list (list Handle) * list (list Handle)) :=
  rA <- run_alone inputs g ;;
  let '(dA, g) := rA in
  rB <- run_alone inputs g ;;
  let '(dB, _) := rB in
  Ok (dA, dB).

(** Two objects side by side: each input goes to the first object, then
    to the second. *)
Fixpoint interleave (inputs : list Input)
    (selfA selfB : Rand_Strat.State) (g : gen)
  : result (list (list Handle) * list (list Handle)) :=
  match inputs with
  | [] => Ok ([], [])
  | i :: rest =>
      rA <- handle i selfA g ;;
      let '(selfA, g, evsA) := rA in
      rB <- handle i selfB g ;;
      let '(selfB, g, evsB) := rB in
      r <- interleave rest selfA selfB g ;;
      let '(dA, dB) := r in
      Ok (submitted evsA :: dA, submitted evsB :: dB)
  end.

Definition run_interleaved (inputs : list Input) (g : gen)
  : result (list (list Handle) * list (list Handle)) :=
  let '(selfA, g) := Rand_Strat.init R p g in
  let '(selfB, g) := Rand_Strat.init R p g in
  interleave inputs selfA selfB g.

End WithGenerator.

(** A generator that replays the first draws of CPython 3 after
    [random.seed(42)] (the doubles 0.6394267984578837,
    0.025010755222666936, 0.27502931836911926, 0.22321073814882275, as
    exact fractions).  Its state is the list of draws to come. *)
Definition tape42 : list Q :=
  [ 5759444582531269 # 9007199254740992;
    225276855802115 # 9007199254740992;
    1238621935723127 # 4503599627370496;
    2010503594304263 # 9007199254740992 ].

Definition replay : PyRandom.Generator := {|
  PyRandom.gen := list Q;
  PyRandom.seed := fun x => if (x =? 42)%Z then tape42 else [];
  PyRandom.random := fun g =>
    match g with
    | [] => (0, [])
    | u :: g' => (u, g')
    end
|}.

End TwoRuns.

(* ------------------------------------------------------------------------- *)
(** ** Sequences of trade notifications *)
(* ------------------------------------------------------------------------- *)

(** The history of each of the three classes after the trades [trs] were
    notified, in order, to a new object. *)
Module Feed.
Import Bt.

Definition sizer (trs : list Trade) : TradeHistory.t :=
  fold_left (fun self tr => AdaptivePositionSizer.notify_trade tr self)
    trs AdaptivePositionSizer.init.

Definition rsi (p : RSI_Strat.Params) (trs : list Trade) : TradeHistory.t :=
  RSI_Strat.history
    (fold_left (fun self tr => fst (RSI_Strat.notify_trade p tr self))
       trs RSI_Strat.init).

Definition bol (p : Bol_Strat.Params) (trs : list Trade) : TradeHistory.t :=
  Bol_Strat.history
    (fold_left (fun self tr => fst (Bol_Strat.notify_trade p tr self))
       trs Bol_Strat.init).

(** A closed trade with a positive net result. *)
Definition closed_win (tr : Trade) : bool :=
  isclosed tr && Py.ltb 0 (pnlcomm tr).

(** A closed trade with a net result that is zero or negative. *)
Definition closed_loss (tr : Trade) : bool :=
  isclosed tr && negb (Py.ltb 0 (pnlcomm tr)).

(** The returns of the winning (losing) trades among [trs], in arrival
    order. *)
Definition winning_returns (trs : list Trade) : list Q :=
  map TradeHistory.trade_return (filter closed_win trs).

Definition losing_returns (trs : list Trade) : list Q :=
  map TradeHistory.trade_return (filter closed_loss trs).

(** [n] closed trades, the [k]-th (from 1) with net result [k] on an open
    value of 100: the returns are 1/100, 2/100, ... *)
Fixpoint rising_wins (n : nat) : list Trade :=
  match n with
  | O => []
  | S n' =>
      rising_wins n' ++
      [{| isclosed := true;
          pnl := inject_Z (Z.of_nat n);
          pnlcomm := inject_Z (Z.of_nat n);
          value := 100 |}]
  end.

End Feed.

(** Both sides of a history hold at most 100 entries. *)
Definition capped (h : TradeHistory.t) : Prop :=
  (length (TradeHistory.wins h) <= 100)%nat /\
  (length (TradeHistory.losses h) <= 100)%nat.

(** Every recorded win is non-negative, every recorded loss non-positive. *)
Definition signed (h : TradeHistory.t) : Prop :=
  Forall (fun r => 0 <= r) (TradeHistory.wins h) /\
  Forall (fun r => r <= 0) (TradeHistory.losses h).

(* ------------------------------------------------------------------------- *)
(** ** Order notifications and the pending order *)
(* ------------------------------------------------------------------------- *)

Module Pending.
Import Bt Lifecycle.

(** The statuses that report a failed order. *)
Definition failed (st : Status) : bool :=
  match st with
  | Canceled | Margin | Rejected => true
  | _ => false
  end.

(** The statuses after which the order is no longer open. *)
Definition terminal (st : Status) : bool :=
  match st with
  | Submitted | Accepted => false
  | _ => true
  end.

Definition opt_list (o : option Handle) : list Handle :=
  match o with
  | Some h => [h]
  | None => []
  end.

(** The strategy and the broker agree on the open orders: the book holds
    the order in [self.order] and nothing else. *)
Definition in_step {E : Strategy} (w : World E) : Prop :=
  book w = opt_list (pending E (eng w)).

(** What the order lifecycle needs of a strategy. *)
Record Lawful (E : Strategy) : Prop := {
  bar_skip : forall a b s h,
    pending E s = Some h -> on_bar E a b s = Py.Ok (s, []);
  bar_submit : forall a b s s' evs,
    pending E s = None -> on_bar E a b s = Py.Ok (s', evs) ->
    submitted evs = opt_list (pending E s');
  order_keep : forall o s,
    terminal (status o) = false ->
    pending E (fst (on_order E o s)) = pending E s;
  order_clear : forall o s,
    terminal (status o) = true ->
    pending E (fst (on_order E o s)) = None;
  trade_keep : forall t s,
    pending E (fst (on_trade E t s)) = pending E s
}.

(** What holds of a [Bol_Strat] object and its broker along a run: the two
    agree on the open order, the position is never short, the entry price is
    set exactly while a position is held, a pending buy was placed from a
    flat position, and a pending sell is for the whole position. *)
Definition bol_consistent {p : Bol_Strat.Params} (w : World (Bol p)) : Prop :=
  in_step w /\
  0 <= pos w /\
  (Bol_Strat.entry_price (eng w) = None <-> pos w == 0) /\
  (forall h, Bol_Strat.order (eng w) = Some h ->
     match h_side h with
     | Buy => pos w == 0 /\ 0 < h_size h
     | Sell => h_size h == pos w /\ 0 < pos w
     end).

End Pending.

(* ------------------------------------------------------------------------- *)
(** ** Scenarios *)
(* ------------------------------------------------------------------------- *)

(** Concrete runs used to exercise the statements below. *)
Module Scenario.
Import Bt Lifecycle.

(** An oversold bar (RSI 15 under the default threshold 20) and an
    overbought bar (RSI 85 over the default threshold 80). *)
Definition oversold : RSI_Strat.Bar :=
  {| RSI_Strat.close := 100; RSI_Strat.rsi := 15 |}.

Definition overbought : RSI_Strat.Bar :=
  {| RSI_Strat.close := 110; RSI_Strat.rsi := 85 |}.

(** Two oversold bars in a row, with no notification in between. *)
Definition rsi_default : Strategy := RSI RSI_Strat.default_params.

Definition two_triggers : list (Input rsi_default) :=
  [OnBar (E := rsi_default) 1000 1000 oversold;
   OnBar (E := rsi_default) 1000 1000 oversold].

(** The scenario of section 8 of the specification, completed by the fill
    of the sell order: buy on an oversold bar, the buy is filled at 100,
    sell on an overbought bar, the sell is filled at 110. *)
Definition round_trip : list (Input rsi_default) :=
  [OnBar (E := rsi_default) 1000 1000 oversold;
   OnOrder 0 Completed 100 0;
   OnBar (E := rsi_default) 980 1002 overbought;
   OnOrder 0 Completed 110 0].

(** A closed trade with a positive net result on a zero open value, and a
    closed trade whose commission ate its gross profit (net result 0). *)
Definition zero_value_win : Trade :=
  {| isclosed := true; pnl := 5; pnlcomm := 5; value := 0 |}.

Definition break_even : Trade :=
  {| isclosed := true; pnl := 1; pnlcomm := 0; value := 100 |}.

(** A band strategy with a 5% stop loss and a 10% take profit, long one
    unit bought at 100; a bar that closes at 120, under the middle band
    (125) and the upper band (130). *)
Definition both_limits : Bol_Strat.Params := {|
  Bol_Strat.bb_period := 20;
  Bol_Strat.bb_devfactor := 2;
  Bol_Strat.position_method := "fixed"%string;
  Bol_Strat.position_size := 2 # 100;
  Bol_Strat.kelly_fraction := 25 # 100;
  Bol_Strat.exit_on_middle := true;
  Bol_Strat.stop_loss_pct := Some 5;
  Bol_Strat.take_profit_pct := Some 10;
  Bol_Strat.printlog := true
|}.

Definition long_at_100 : Bol_Strat.State :=
  Bol_Strat.set_entry_price (Some 100)
    (Bol_Strat.set_entry_comm (Some 0) Bol_Strat.init).

Definition holding_one : Account :=
  {| get_cash := 900; getvalue := 1020; position := 1 |}.

Definition close_120 : Bol_Strat.Bar :=
  {| Bol_Strat.close := 120; Bol_Strat.bb_top := 130;
     Bol_Strat.bb_mid := 125; Bol_Strat.bb_bot := 90 |}.

(** A random strategy that trades on half of the bars, seeded with 42, and
    one bar seen from a flat account. *)
Definition coin_flip : Rand_Strat.Params := {|
  Rand_Strat.trade_probability := 1 # 2;
  Rand_Strat.position_size := 2 # 100;
  Rand_Strat.hold_bars := 10;
  Rand_Strat.seed := Some 42%Z;
  Rand_Strat.printlog := false
|}.

Definition one_flat_bar : list TwoRuns.Input :=
  [TwoRuns.Bar {| get_cash := 1000; getvalue := 1000; position := 0 |}
               {| Rand_Strat.close := 100 |}].

(** A sizer configured with its lower bound above its upper bound. *)
Definition crossed_bounds : AdaptivePositionSizer.Params := {|
  AdaptivePositionSizer.method := "fixed"%string;
  AdaptivePositionSizer.kelly_fraction := 25 # 100;
  AdaptivePositionSizer.fixed_size := 1 # 10;
  AdaptivePositionSizer.min_trades := 20;
  AdaptivePositionSizer.max_position := 3 # 10;
  AdaptivePositionSizer.min_position := 1 # 2
|}.

(** The same band strategy with the take profit alone. *)
Definition take_profit_only : Bol_Strat.Params := {|
  Bol_Strat.bb_period := 20;
  Bol_Strat.bb_devfactor := 2;
  Bol_Strat.position_method := "fixed"%string;
  Bol_Strat.position_size := 2 # 100;
  Bol_Strat.kelly_fraction := 25 # 100;
  Bol_Strat.exit_on_middle := true;
  Bol_Strat.stop_loss_pct := None;
  Bol_Strat.take_profit_pct := Some 10;
  Bol_Strat.printlog := true
|}.

(** A bar that closes above both the middle and the upper band. *)
Definition close_140 : Bol_Strat.Bar :=
  {| Bol_Strat.close := 140; Bol_Strat.bb_top := 130;
     Bol_Strat.bb_mid := 125; Bol_Strat.bb_bot := 90 |}.

(** A band strategy buys under the lower band and is filled at 90. *)
Definition bol_default : Strategy := Bol Bol_Strat.default_params.

Definition bol_entry : list (Input bol_default) :=
  [OnBar (E := bol_default) 1000 1000
     {| Bol_Strat.close := 90; Bol_Strat.bb_top := 110;
        Bol_Strat.bb_mid := 100; Bol_Strat.bb_bot := 95 |};
   OnOrder 0 Completed 90 0].

(** A strategy that waits for the outcome of a buy order. *)
Definition waiting : RSI_Strat.State :=
  RSI_Strat.set_order (Some {| h_side := Buy; h_size := 1 # 5 |}) RSI_Strat.init.

(** A rejected order. *)
Definition rejected_buy : Order :=
  {| status := Rejected;
     isbuy := true;
     executed := {| ex_price := 0; ex_size := 0; ex_comm := 0; ex_value := 0 |} |}.

End Scenario.

(* ------------------------------------------------------------------------- *)
(** ** Orders and the position they are placed from *)
(* ------------------------------------------------------------------------- *)

Module Conduct.
Import Bt Lifecycle Pending.

(** An order fits the account it was placed from: a buy is placed from a
    flat account, a sell is for the whole of a non-zero position. *)
Definition fits (a : Account) (h : Handle) : Prop :=
  match h_side h with
  | Buy => flat a = true /\ 0 < h_size h
  | Sell => flat a = false /\ h_size h = Py.abs (position a)
  end.

(** What [next] submitted is at most one order, and it fits. *)
Definition one_fitting (a : Account) (evs : list event) : Prop :=
  exists o, submitted evs = opt_list o /\ forall h, o = Some h -> fits a h.

(** A strategy whose [next] only places orders that fit. *)
Definition places_fitting (E : Strategy) : Prop :=
  forall a b s s' evs,
    on_bar E a b s = Py.Ok (s', evs) -> Forall (fits a) (submitted evs).

(** Along a run of such a strategy: the position is never short, an open
    buy waits on a flat position, an open sell is for the position held. *)
Definition long_only {E : Strategy} (w : World E) : Prop :=
  in_step w /\
  0 <= pos w /\
  (forall h, In h (book w) ->
     match h_side h with
     | Buy => pos w == 0 /\ 0 < h_size h
     | Sell => h_size h == pos w /\ 0 < pos w
     end).

(** The input is a bar. *)
Definition is_bar {E : Strategy} (i : Input E) : bool :=
  match i with
  | OnBar _ _ _ => true
  | _ => false
  end.

(** The strategy objects after the trades [trs] were notified, in order, to
    a new object. *)
Definition rsi_after (p : RSI_Strat.Params) (trs : list Trade)
  : RSI_Strat.State :=
  fold_left (fun self tr => fst (RSI_Strat.notify_trade p tr self))
    trs RSI_Strat.init.

Definition bol_after (p : Bol_Strat.Params) (trs : list Trade)
  : Bol_Strat.State :=
  fold_left (fun self tr => fst (Bol_Strat.notify_trade p tr self))
    trs Bol_Strat.init.

(** The fixed-fraction size [(cash * position_size) / price], with the
    lines [logs] logged on the way. *)
Definition fixed_size (cash position_size price : Q) (logs : list event)
  : Py.result (Q * list event) :=
  size <- Py.div (cash * position_size) price ;; Py.Ok (size, logs).

(** The outcome [r] of [calculate_position_size] at price [close]: a zero
    price raises; otherwise a size comes back, either the fixed fraction of
    cash or a fraction [kf] of the portfolio value with [0 < kf <= 1], and
    nothing is submitted on the way. *)
Definition sized (cash value position_size close : Q)
    (r : Py.result (Q * list event)) : Prop :=
  (close == 0 -> r = Py.Raise Py.ZeroDivisionError) /\
  (~ close == 0 ->
   exists size logs,
     r = Py.Ok (size, logs) /\
     submitted logs = [] /\
     (size == cash * position_size / close \/
      exists kf, 0 < kf /\ kf <= 1 /\ size == value * kf / close)).

(** The condition under which a percentage limit of [Bol_Strat] is in
    force: the percentage and the entry price are both set and non-zero. *)
Definition armed (pct entry_price : option Q) : bool :=
  Py.truthy pct && Py.truthy entry_price.

End Conduct.

(** Sample data for the statements on sizing and holding. *)
Module Cases.
Import Bt Lifecycle.

(** A flat account with 1000 in cash. *)
Definition flat_1000 : Account :=
  {| get_cash := 1000; getvalue := 1000; position := 0 |}.

(** A strategy configured for Kelly sizing. *)
Definition rsi_kelly : RSI_Strat.Params := {|
  RSI_Strat.rsi_period := 14;
  RSI_Strat.rsi_oversold := 20;
  RSI_Strat.rsi_overbought := 80;
  RSI_Strat.position_method := "kelly"%string;
  RSI_Strat.position_size := 2 # 100;
  RSI_Strat.kelly_fraction := 25 # 100;
  RSI_Strat.printlog := false
|}.

Definition bol_kelly : Bol_Strat.Params := {|
  Bol_Strat.bb_period := 20;
  Bol_Strat.bb_devfactor := 2;
  Bol_Strat.position_method := "kelly"%string;
  Bol_Strat.position_size := 2 # 100;
  Bol_Strat.kelly_fraction := 25 # 100;
  Bol_Strat.exit_on_middle := true;
  Bol_Strat.stop_loss_pct := None;
  Bol_Strat.take_profit_pct := None;
  Bol_Strat.printlog := false
|}.

Definition bol_bar : Bol_Strat.Bar :=
  {| Bol_Strat.close := 90; Bol_Strat.bb_top := 110;
     Bol_Strat.bb_mid := 100; Bol_Strat.bb_bot := 95 |}.

(** [n] closed losing trades, each losing 1 on an open value of 100. *)
Definition losing_trades (n : nat) : list Trade :=
  repeat {| isclosed := true; pnl := - (1); pnlcomm := - (1); value := 100 |} n.

(** A random strategy that trades on every bar it may, holding for at
    least 10 bars; a generator that always draws 0. *)
Definition eager : Rand_Strat.Params := {|
  Rand_Strat.trade_probability := 1;
  Rand_Strat.position_size := 2 # 100;
  Rand_Strat.hold_bars := 10;
  Rand_Strat.seed := None;
  Rand_Strat.printlog := false
|}.

Definition zeros : PyRandom.Generator := {|
  PyRandom.gen := unit;
  PyRandom.seed := fun _ => tt;
  PyRandom.random := fun g => (0, g)
|}.

Definition rand_eager : Strategy := Rand zeros eager.

(** The strategy holds 2 units, bought a moment ago. *)
Definition just_bought : World rand_eager :=
  Build_World rand_eager
    ({| Rand_Strat.order := None;
        Rand_Strat.bar_count_in_position := 0 |}, tt)
    2 [].

Definition nine_bars : list (Input rand_eager) :=
  repeat (OnBar (E := rand_eager) 1000 1200 {| Rand_Strat.close := 100 |}) 9.

End Cases.

(* ========================================================================= *)
(** * Verification *)
(* ========================================================================= *)

(* ------------------------------------------------------------------------- *)
(** ** Facts about the Python operators *)
(* ------------------------------------------------------------------------- *)

Module PyFacts.
Import Py.

Lemma ltb_true (a b : Q) : ltb a b = true <-> a < b.
Proof.
  unfold ltb. rewrite negb_true_iff. split; intro H.
  - apply Qnot_le_lt. intro Hle. apply Qle_bool_iff in Hle. congruence.
  - destruct (Qle_bool b a) eqn:E; [|reflexivity].
    apply Qle_bool_iff in E. exfalso. exact (Qlt_not_le _ _ H E).
Qed.

Lemma ltb_false (a b : Q) : ltb a b = false <-> b <= a.
Proof.
  unfold ltb. rewrite negb_false_iff. apply Qle_bool_iff.
Qed.

Lemma leb_true (a b : Q) : leb a b = true <-> a <= b.
Proof. apply Qle_bool_iff. Qed.

Lemma leb_false (a b : Q) : leb a b = false <-> b < a.
Proof.
  unfold leb. split; intro H.
  - apply Qnot_le_lt. intro Hle. apply Qle_bool_iff in Hle. congruence.
  - destruct (Qle_bool a b) eqn:E; [|reflexivity].
    apply Qle_bool_iff in E. exfalso. exact (Qlt_not_le _ _ H E).
Qed.

Lemma eqb_true (a b : Q) : eqb a b = true <-> a == b.
Proof. apply Qeq_bool_iff. Qed.

Lemma eqb_false (a b : Q) : eqb a b = false <-> ~ a == b.
Proof.
  unfold eqb. split; intro H.
  - intro E. apply Qeq_bool_iff in E. congruence.
  - destruct (Qeq_bool a b) eqn:E; [|reflexivity].
    apply Qeq_bool_iff in E. contradiction.
Qed.

(** [max lo (min x hi)] is the clamp of [x] to [lo, hi] when [lo <= hi]. *)
Lemma clamp_lower (lo x hi : Q) : lo <= max lo (min x hi).
Proof.
  unfold max. destruct (ltb lo (min x hi)) eqn:E.
  - apply ltb_true in E. apply Qlt_le_weak. exact E.
  - apply Qle_refl.
Qed.

Lemma min_upper (x hi : Q) : min x hi <= hi.
Proof.
  unfold min. destruct (ltb hi x) eqn:E.
  - apply Qle_refl.
  - apply ltb_false in E. exact E.
Qed.

Lemma clamp_upper (lo x hi : Q) : lo <= hi -> max lo (min x hi) <= hi.
Proof.
  intro H. unfold max. destruct (ltb lo (min x hi)) eqn:E.
  - apply min_upper.
  - exact H.
Qed.

Lemma clamp_id (lo x hi : Q) : lo <= x -> x <= hi -> max lo (min x hi) == x.
Proof.
  intros Hlo Hhi. unfold max, min.
  destruct (ltb hi x) eqn:E1.
  - apply ltb_true in E1. exfalso. exact (Qlt_not_le _ _ E1 Hhi).
  - destruct (ltb lo x) eqn:E2; [reflexivity|].
    apply ltb_false in E2. apply Qle_antisym; assumption.
Qed.

Lemma max_Qmax (a b : Q) : max a b == Qmax a b.
Proof.
  unfold max. destruct (ltb a b) eqn:E.
  - apply ltb_true in E. symmetry. apply Q.max_r. apply Qlt_le_weak. exact E.
  - apply ltb_false in E. symmetry. apply Q.max_l. exact E.
Qed.

Lemma min_Qmin (a b : Q) : min a b == Qmin a b.
Proof.
  unfold min. destruct (ltb b a) eqn:E.
  - apply ltb_true in E. symmetry. apply Q.min_r. apply Qlt_le_weak. exact E.
  - apply ltb_false in E. symmetry. apply Q.min_l. exact E.
Qed.

End PyFacts.

(* ------------------------------------------------------------------------- *)
(** ** [PositionSizer.kelly_criterion] *)
(* ------------------------------------------------------------------------- *)

Module KellyFacts.
Import Py PyFacts PositionSizer.

Lemma div_ok (a b : Q) : ~ b == 0 -> div a b = Ok (a / b).
Proof.
  intro H. unfold div. apply eqb_false in H. rewrite H. reflexivity.
Qed.

Lemma quotient_nonzero (a b : Q) : ~ a == 0 -> ~ b == 0 -> ~ a / b == 0.
Proof.
  intros Ha Hb H. apply Ha.
  transitivity (b * (a / b)).
  - symmetry. apply Qmult_div_r. exact Hb.
  - transitivity (b * 0).
    + apply Qmult_comp; [reflexivity | exact H].
    + ring.
Qed.

Lemma abs_nonzero (r : Q) : ~ r == 0 -> ~ abs r == 0.
Proof.
  intros Hr H. apply Hr. unfold abs in H.
  assert (Hle : Qabs r <= 0) by (rewrite H; apply Qle_refl).
  apply Qabs_Qle_condition in Hle. destruct Hle as [H1 H2].
  apply Qle_antisym; [exact H2 | exact H1].
Qed.

(** With well-formed statistics the function does not raise: it returns the
    clamp of the scaled Kelly value [k]. *)
Lemma kelly_criterion_returns (win_rate avg_win avg_loss L fraction : Q) :
  0 <= win_rate -> win_rate <= 1 -> 0 < avg_win -> avg_loss < 0 ->
  kelly_criterion win_rate avg_win avg_loss L fraction = Ok 0 \/
  exists k, kelly_criterion win_rate avg_win avg_loss L fraction
            = Ok (max 0 (min (k * fraction) L)).
Proof.
  intros Hw0 Hw1 Haw Hal. unfold kelly_criterion.
  destruct (ltb win_rate 0 || ltb 1 win_rate); [left; reflexivity|].
  destruct (leb 0 avg_loss || leb avg_win 0); [left; reflexivity|].
  destruct (eqb win_rate 0); [left; reflexivity|].
  right. destruct (eqb win_rate 1).
  - exists L. reflexivity.
  - assert (Hal0 : ~ avg_loss == 0).
    { intro E. rewrite E in Hal. exact (Qlt_irrefl _ Hal). }
    assert (Haw0 : ~ avg_win == 0).
    { intro E. rewrite E in Haw. exact (Qlt_irrefl _ Haw). }
    rewrite (div_ok _ _ Hal0). cbn [bind].
    rewrite (div_ok _ _ (abs_nonzero _ (quotient_nonzero _ _ Haw0 Hal0))).
    cbn [bind]. eexists. reflexivity.
Qed.

(** C5.  Kelly range postcondition: for a win rate in [0, 1], a positive
    average win, a negative average loss, a maximum leverage [L >= 0] and any
    fraction, [kelly_criterion] returns a value, and that value lies in the
    closed interval [0, L]. *)
Theorem kelly_criterion_range (win_rate avg_win avg_loss L fraction : Q) :
  0 <= win_rate -> win_rate <= 1 -> 0 < avg_win -> avg_loss < 0 -> 0 <= L ->
  exists k,
    kelly_criterion win_rate avg_win avg_loss L fraction = Ok k /\
    0 <= k /\ k <= L.
Proof.
  intros Hw0 Hw1 Haw Hal HL.
  destruct (kelly_criterion_returns win_rate avg_win avg_loss L fraction
              Hw0 Hw1 Haw Hal) as [E | [k E]]; rewrite E.
  - exists 0. repeat split; [apply Qle_refl | exact HL].
  - eexists. split; [reflexivity|]. split.
    + apply clamp_lower.
    + apply clamp_upper. exact HL.
Qed.

Lemma kelly_criterion_range_witness :
  0 <= 6 # 10 /\ 6 # 10 <= 1 /\ 0 < 2 # 100 /\ - (1 # 100) < 0 /\ 0 <= 1 /\
  exists k,
    kelly_criterion (6 # 10) (2 # 100) (- (1 # 100)) 1 (25 # 100) = Ok k /\
    0 <= k /\ k <= 1.
Proof.
  assert (H1 : 0 <= 6 # 10) by (unfold Qle; simpl; lia).
  assert (H2 : 6 # 10 <= 1) by (unfold Qle; simpl; lia).
  assert (H3 : 0 < 2 # 100) by (unfold Qlt; simpl; lia).
  assert (H4 : - (1 # 100) < 0) by (unfold Qlt; simpl; lia).
  assert (H5 : 0 <= 1) by (unfold Qle; simpl; lia).
  repeat (split; [assumption|]).
  exact (kelly_criterion_range (6 # 10) (2 # 100) (- (1 # 100)) 1 (25 # 100)
           H1 H2 H3 H4 H5).
Defined.

Lemma no_edge_zero (win_rate avg_win avg_loss L fraction : Q) :
  win_rate < 0 \/ 1 < win_rate \/ 0 <= avg_loss \/ avg_win <= 0 \/
  win_rate == 0 ->
  kelly_criterion win_rate avg_win avg_loss L fraction = Ok 0.
Proof.
  intro H. unfold kelly_criterion.
  destruct (ltb win_rate 0) eqn:E1; [reflexivity|].
  destruct (ltb 1 win_rate) eqn:E2; [reflexivity|].
  destruct (leb 0 avg_loss) eqn:E3; [reflexivity|].
  destruct (leb avg_win 0) eqn:E4; [reflexivity|].
  destruct (eqb win_rate 0) eqn:E5; [reflexivity|].
  exfalso. cbn [orb] in *.
  apply ltb_false in E1. apply ltb_false in E2.
  apply leb_false in E3. apply leb_false in E4. apply eqb_false in E5.
  destruct H as [H | [H | [H | [H | H]]]];
    first [ exact (Qlt_not_le _ _ H E1) | exact (Qlt_not_le _ _ H E2)
          | exact (Qlt_not_le _ _ E3 H) | exact (Qlt_not_le _ _ E4 H)
          | exact (E5 H) ].
Qed.

(** Malformed statistics (a win rate outside [0, 1], a non-negative average
    loss, a non-positive average win) and a win rate of 0 give 0. *)
Theorem kelly_criterion_no_edge (win_rate avg_win avg_loss L fraction : Q) :
  win_rate < 0 \/ 1 < win_rate \/ 0 <= avg_loss \/ avg_win <= 0 \/
  win_rate == 0 ->
  kelly_criterion win_rate avg_win avg_loss L fraction = Ok 0.
Proof.
  exact (no_edge_zero win_rate avg_win avg_loss L fraction).
Qed.

Lemma kelly_criterion_no_edge_witness :
  (12 # 10 < 0 \/ 1 < 12 # 10 \/ 0 <= - (1 # 100) \/ 2 # 100 <= 0 \/
   12 # 10 == 0) /\
  kelly_criterion (12 # 10) (2 # 100) (- (1 # 100)) 1 (1 # 2) = Ok 0.
Proof.
  assert (H : 12 # 10 < 0 \/ 1 < 12 # 10 \/ 0 <= - (1 # 100) \/
              2 # 100 <= 0 \/ 12 # 10 == 0).
  { right. left. unfold Qlt. simpl. lia. }
  split; [exact H|].
  exact (kelly_criterion_no_edge (12 # 10) (2 # 100) (- (1 # 100)) 1 (1 # 2) H).
Defined.

(** [fixed_fractional] returns a fraction in [0, 1], and its argument when
    that is one. *)
Theorem fixed_fractional_range (fraction : Q) :
  0 <= fixed_fractional fraction /\ fixed_fractional fraction <= 1 /\
  (0 <= fraction -> fraction <= 1 -> fixed_fractional fraction == fraction).
Proof.
  unfold fixed_fractional. split; [apply clamp_lower|]. split.
  - apply clamp_upper. unfold Qle. simpl. lia.
  - apply clamp_id.
Qed.

Lemma fixed_fractional_range_witness :
  0 <= 2 # 100 /\ 2 # 100 <= 1 /\ fixed_fractional (2 # 100) == 2 # 100.
Proof.
  assert (H1 : 0 <= 2 # 100) by (unfold Qle; simpl; lia).
  assert (H2 : 2 # 100 <= 1) by (unfold Qle; simpl; lia).
  repeat (split; [assumption|]).
  exact (proj2 (proj2 (fixed_fractional_range (2 # 100))) H1 H2).
Defined.

(** The example of the specification:
    [kelly_criterion(0.6, 0.02, -0.01, 1.0, 0.25) == 0.10]. *)
Example kelly_criterion_example :
  exists k,
    kelly_criterion (6 # 10) (2 # 100) (- (1 # 100)) 1 (25 # 100) = Ok k /\
    k == 1 # 10.
Proof. eexists. split; [vm_compute; reflexivity | reflexivity]. Qed.

(** C6, as stated, fails: with win rate 1, [L = 1] and [fraction = 2] the
    function returns 1, not [L * fraction = 2]. *)
Lemma kelly_criterion_certain_win_counterexample :
  ~ (forall avg_win avg_loss L fraction : Q,
       0 < avg_win -> avg_loss < 0 ->
       exists k,
         kelly_criterion 1 avg_win avg_loss L fraction = Ok k /\
         k == L * fraction).
Proof.
  intro H.
  destruct (H (2 # 100) (- (1 # 100)) 1 2) as [k [E Hk]].
  - reflexivity.
  - reflexivity.
  - vm_compute in E. injection E as <-. discriminate Hk.
Qed.

(** C6, amended.  Kelly certain-win case: with win rate 1, a positive average
    win and a negative average loss, [kelly_criterion] returns
    [max(0, min(L * fraction, L))]: the scaled leverage is still clamped to
    [0, L].  It equals [L * fraction] whenever [0 <= L * fraction <= L]. *)
Theorem kelly_criterion_certain_win (avg_win avg_loss L fraction : Q) :
  0 < avg_win -> avg_loss < 0 ->
  kelly_criterion 1 avg_win avg_loss L fraction
    = Ok (max 0 (min (L * fraction) L)) /\
  (0 <= L * fraction -> L * fraction <= L ->
   max 0 (min (L * fraction) L) == L * fraction).
Proof.
  intros Haw Hal. split.
  - unfold kelly_criterion.
    replace (ltb 1 0 || ltb 1 1) with false by reflexivity.
    assert (E1 : leb 0 avg_loss = false) by (apply leb_false; exact Hal).
    assert (E2 : leb avg_win 0 = false) by (apply leb_false; exact Haw).
    rewrite E1, E2. reflexivity.
  - intros H0 H1. apply clamp_id; assumption.
Qed.

Lemma kelly_criterion_certain_win_witness :
  0 < 2 # 100 /\ - (1 # 100) < 0 /\
  kelly_criterion 1 (2 # 100) (- (1 # 100)) 1 (1 # 2)
    = Ok (max 0 (min (1 * (1 # 2)) 1)) /\
  (0 <= 1 * (1 # 2) -> 1 * (1 # 2) <= 1 ->
   max 0 (min (1 * (1 # 2)) 1) == 1 * (1 # 2)).
Proof.
  assert (H1 : 0 < 2 # 100) by (unfold Qlt; simpl; lia).
  assert (H2 : - (1 # 100) < 0) by (unfold Qlt; simpl; lia).
  repeat (split; [assumption|]).
  exact (kelly_criterion_certain_win (2 # 100) (- (1 # 100)) 1 (1 # 2) H1 H2).
Defined.

End KellyFacts.

(* ------------------------------------------------------------------------- *)
(** ** The trade-outcome history *)
(* ------------------------------------------------------------------------- *)

Module HistoryFacts.
Import Py PyFacts Bt TradeHistory Feed.

Lemma last_n_short {A : Type} (n : nat) (l : list A) :
  (length l <= n)%nat -> last_n n l = l.
Proof.
  intro H. unfold last_n.
  replace (length l - n)%nat with 0%nat by lia. reflexivity.
Qed.

Lemma last_n_length {A : Type} (n : nat) (l : list A) :
  (length (last_n n l) <= n)%nat.
Proof.
  unfold last_n. rewrite length_skipn. lia.
Qed.

Lemma last_n_idem {A : Type} (n : nat) (l : list A) :
  last_n n (last_n n l) = last_n n l.
Proof.
  apply last_n_short. apply last_n_length.
Qed.

(** Appending to the truncated list and truncating again is truncating the
    whole list once: nothing but the oldest entries is ever dropped. *)
Lemma last_n_snoc {A : Type} (n : nat) (l : list A) (x : A) :
  last_n n (last_n n l ++ [x]) = last_n n (l ++ [x]).
Proof.
  destruct (Nat.le_gt_cases (length l) n) as [Hle | Hgt].
  - rewrite (last_n_short n l Hle). reflexivity.
  - unfold last_n at 1 3.
    rewrite !length_app. cbn [length].
    unfold last_n. rewrite length_skipn.
    rewrite !skipn_app. rewrite length_skipn.
    rewrite skipn_skipn.
    replace (length l - (length l - n) + 1 - n
             + (length l - n))%nat with (length l + 1 - n)%nat by lia.
    replace (length l - (length l - n) + 1 - n
             - (length l - (length l - n)))%nat
      with (length l + 1 - n - length l)%nat by lia.
    reflexivity.
Qed.

Lemma cap_last_n (l : list Q) : cap l = last_n 100 l.
Proof.
  unfold cap. destruct (100 <? length l)%nat eqn:E; [reflexivity|].
  apply Nat.ltb_ge in E. symmetry. apply last_n_short. exact E.
Qed.

Lemma last_n_incl {A : Type} (n : nat) (l : list A) (P : A -> Prop) :
  Forall P l -> Forall P (last_n n l).
Proof.
  intro H. unfold last_n. rewrite <- (firstn_skipn (length l - n) l) in H.
  apply Forall_app in H. exact (proj2 H).
Qed.

(** The guarded division of [trade_return] is the Python division: it is
    only evaluated on a non-zero divisor. *)
Lemma trade_return_div (tr : Trade) :
  eqb (value tr) 0 = false ->
  div (pnlcomm tr) (abs (value tr)) = Ok (trade_return tr).
Proof.
  intro E. unfold trade_return. rewrite E. cbn [negb].
  apply KellyFacts.div_ok. apply KellyFacts.abs_nonzero.
  apply eqb_false. exact E.
Qed.

(** What one closed trade does to the two lists. *)
Lemma record_win (tr : Trade) (h : t) :
  ltb 0 (pnlcomm tr) = true ->
  wins (record tr h) = last_n 100 (wins h ++ [trade_return tr]) /\
  losses (record tr h) = last_n 100 (losses h).
Proof.
  intro E. unfold record. rewrite E. cbn [wins losses].
  rewrite !cap_last_n. split; reflexivity.
Qed.

Lemma record_loss (tr : Trade) (h : t) :
  ltb 0 (pnlcomm tr) = false ->
  wins (record tr h) = last_n 100 (wins h) /\
  losses (record tr h) = last_n 100 (losses h ++ [trade_return tr]).
Proof.
  intro E. unfold record. rewrite E. cbn [wins losses].
  rewrite !cap_last_n. split; reflexivity.
Qed.

(** The two strategies keep their history exactly as the sizer does. *)
Lemma rsi_sizer (p : RSI_Strat.Params) (trs : list Trade) :
  rsi p trs = sizer trs.
Proof.
  unfold rsi, sizer.
  assert (G : forall s h, RSI_Strat.history s = h ->
    RSI_Strat.history
      (fold_left (fun self tr => fst (RSI_Strat.notify_trade p tr self)) trs s)
    = fold_left (fun self tr => AdaptivePositionSizer.notify_trade tr self)
        trs h).
  { induction trs as [|tr trs IH]; intros s h E; cbn [fold_left].
    - exact E.
    - apply IH. subst h.
      unfold RSI_Strat.notify_trade, AdaptivePositionSizer.notify_trade.
      destruct (negb (isclosed tr)); reflexivity. }
  apply G. reflexivity.
Qed.

Lemma bol_sizer (p : Bol_Strat.Params) (trs : list Trade) :
  bol p trs = sizer trs.
Proof.
  unfold bol, sizer.
  assert (G : forall s h, Bol_Strat.history s = h ->
    Bol_Strat.history
      (fold_left (fun self tr => fst (Bol_Strat.notify_trade p tr self)) trs s)
    = fold_left (fun self tr => AdaptivePositionSizer.notify_trade tr self)
        trs h).
  { induction trs as [|tr trs IH]; intros s h E; cbn [fold_left].
    - exact E.
    - apply IH. subst h.
      unfold Bol_Strat.notify_trade, AdaptivePositionSizer.notify_trade.
      destruct (negb (isclosed tr)); reflexivity. }
  apply G. reflexivity.
Qed.

(** The history is the last 100 winning returns and the last 100 losing
    returns of the trades seen so far, each in arrival order. *)
Lemma sizer_last_100 (trs : list Trade) :
  wins (sizer trs) = last_n 100 (winning_returns trs) /\
  losses (sizer trs) = last_n 100 (losing_returns trs).
Proof.
  induction trs as [|tr trs IH] using rev_ind.
  - split; reflexivity.
  - unfold sizer in *. rewrite fold_left_app.
    set (h := fold_left _ trs _) in *. cbn [fold_left].
    unfold winning_returns, losing_returns in *.
    rewrite !filter_app, !map_app. cbn [filter].
    unfold AdaptivePositionSizer.notify_trade, closed_win, closed_loss.
    destruct IH as [IHw IHl].
    destruct (isclosed tr); cbn [negb andb].
    + destruct (ltb 0 (pnlcomm tr)) eqn:E; cbn [negb map].
      * destruct (record_win tr h E) as [Hw Hl]. rewrite Hw, Hl, IHw, IHl.
        rewrite last_n_snoc, last_n_idem, !app_nil_r. split; reflexivity.
      * destruct (record_loss tr h E) as [Hw Hl]. rewrite Hw, Hl, IHw, IHl.
        rewrite last_n_snoc, last_n_idem, !app_nil_r. split; reflexivity.
    + cbn [map]. rewrite !app_nil_r. split; assumption.
Qed.

Lemma sizer_capped (trs : list Trade) : capped (sizer trs).
Proof.
  destruct (sizer_last_100 trs) as [Hw Hl]. unfold capped.
  rewrite Hw, Hl. split; apply last_n_length.
Qed.

Lemma all_wins (trs : list Trade) :
  forallb closed_win trs = true -> winning_returns trs = map trade_return trs.
Proof.
  intro H. unfold winning_returns. f_equal.
  induction trs as [|tr trs IH]; [reflexivity|].
  cbn [forallb] in H. apply andb_prop in H. destruct H as [H1 H2].
  cbn [filter]. rewrite H1. f_equal. apply IH. exact H2.
Qed.

Lemma sizer_105_wins (trs : list Trade) :
  length trs = 105%nat -> forallb closed_win trs = true ->
  wins (sizer trs) = skipn 5 (map trade_return trs).
Proof.
  intros Hlen Hall. rewrite (proj1 (sizer_last_100 trs)).
  rewrite (all_wins trs Hall). unfold last_n.
  rewrite length_map, Hlen. reflexivity.
Qed.

(** The history of each of the three classes is a sliding window: its wins
    are the last 100 returns of the closed winning trades notified so far,
    its losses the last 100 returns of the closed losing trades, each in
    arrival order. *)
Theorem history_sliding_window
    (pr : RSI_Strat.Params) (pb : Bol_Strat.Params) (trs : list Trade) :
  let window := {| wins := last_n 100 (winning_returns trs);
                   losses := last_n 100 (losing_returns trs) |} in
  sizer trs = window /\ rsi pr trs = window /\ bol pb trs = window.
Proof.
  cbv zeta. rewrite rsi_sizer, bol_sizer.
  destruct (sizer_last_100 trs) as [Hw Hl].
  destruct (sizer trs) as [w l]. cbn [wins losses] in Hw, Hl.
  rewrite Hw, Hl. repeat split.
Qed.

(** C7.  Bounded FIFO trade history, for [AdaptivePositionSizer],
    [RSI_Strat] and [Bol_Strat]: after any sequence of trade notifications to
    a new object the wins list and the losses list hold at most 100 entries
    each; and after 105 closed winning trades the wins list is the returns of
    the 100 most recent of them in arrival order, that is, all 105 returns
    without the 5 oldest. *)
Theorem history_bounded_fifo
    (pr : RSI_Strat.Params) (pb : Bol_Strat.Params) (trs : list Trade) :
  (capped (sizer trs) /\ capped (rsi pr trs) /\ capped (bol pb trs)) /\
  (length trs = 105%nat -> forallb closed_win trs = true ->
   wins (sizer trs) = skipn 5 (map trade_return trs) /\
   wins (rsi pr trs) = skipn 5 (map trade_return trs) /\
   wins (bol pb trs) = skipn 5 (map trade_return trs)).
Proof.
  rewrite rsi_sizer, bol_sizer. split.
  - repeat split; apply sizer_capped.
  - intros Hlen Hall. repeat split; apply sizer_105_wins; assumption.
Qed.

Lemma history_bounded_fifo_witness :
  length (rising_wins 105) = 105%nat /\
  forallb closed_win (rising_wins 105) = true /\
  wins (sizer (rising_wins 105))
    = skipn 5 (map trade_return (rising_wins 105)) /\
  wins (rsi RSI_Strat.default_params (rising_wins 105))
    = skipn 5 (map trade_return (rising_wins 105)) /\
  wins (bol Bol_Strat.default_params (rising_wins 105))
    = skipn 5 (map trade_return (rising_wins 105)).
Proof.
  assert (H1 : length (rising_wins 105) = 105%nat) by reflexivity.
  assert (H2 : forallb closed_win (rising_wins 105) = true) by reflexivity.
  split; [exact H1|]. split; [exact H2|].
  exact (proj2 (history_bounded_fifo RSI_Strat.default_params
                  Bol_Strat.default_params (rising_wins 105)) H1 H2).
Defined.

Lemma abs_pos (v : Q) : ~ v == 0 -> 0 < abs v.
Proof.
  intro H. destruct (Qlt_le_dec 0 (abs v)) as [Hlt | Hle]; [exact Hlt|].
  exfalso. apply (KellyFacts.abs_nonzero v H).
  apply Qle_antisym; [exact Hle | apply Qabs_nonneg].
Qed.

Lemma trade_return_win (tr : Trade) :
  ltb 0 (pnlcomm tr) = true -> 0 <= trade_return tr.
Proof.
  intro E. apply ltb_true in E. unfold trade_return.
  destruct (eqb (value tr) 0) eqn:Ev; cbn [negb]; [apply Qle_refl|].
  apply eqb_false in Ev. apply Qle_shift_div_l; [apply abs_pos; exact Ev|].
  rewrite Qmult_0_l. apply Qlt_le_weak. exact E.
Qed.

Lemma trade_return_loss (tr : Trade) :
  ltb 0 (pnlcomm tr) = false -> trade_return tr <= 0.
Proof.
  intro E. apply ltb_false in E. unfold trade_return.
  destruct (eqb (value tr) 0) eqn:Ev; cbn [negb]; [apply Qle_refl|].
  apply eqb_false in Ev. apply Qle_shift_div_r; [apply abs_pos; exact Ev|].
  rewrite Qmult_0_l. exact E.
Qed.

Lemma winning_returns_signed (trs : list Trade) :
  Forall (fun r => 0 <= r) (winning_returns trs).
Proof.
  unfold winning_returns. apply Forall_map. apply Forall_forall.
  intros tr Hin. apply filter_In in Hin. destruct Hin as [_ H].
  unfold closed_win in H. apply andb_prop in H.
  apply trade_return_win. exact (proj2 H).
Qed.

Lemma losing_returns_signed (trs : list Trade) :
  Forall (fun r => r <= 0) (losing_returns trs).
Proof.
  unfold losing_returns. apply Forall_map. apply Forall_forall.
  intros tr Hin. apply filter_In in Hin. destruct Hin as [_ H].
  unfold closed_loss in H. apply andb_prop in H. destruct H as [_ H].
  apply negb_true_iff in H. apply trade_return_loss. exact H.
Qed.

Lemma sizer_signed (trs : list Trade) : signed (sizer trs).
Proof.
  destruct (sizer_last_100 trs) as [Hw Hl]. unfold signed.
  rewrite Hw, Hl. split; apply last_n_incl.
  - apply winning_returns_signed.
  - apply losing_returns_signed.
Qed.

(** On a closed trade the three [notify_trade] methods update the history by
    [record]. *)
Lemma notify_trade_closed
    (pr : RSI_Strat.Params) (pb : Bol_Strat.Params) (tr : Trade)
    (h : TradeHistory.t) (sr : RSI_Strat.State) (sb : Bol_Strat.State) :
  isclosed tr = true ->
  AdaptivePositionSizer.notify_trade tr h = record tr h /\
  RSI_Strat.history (fst (RSI_Strat.notify_trade pr tr sr))
    = record tr (RSI_Strat.history sr) /\
  Bol_Strat.history (fst (Bol_Strat.notify_trade pb tr sb))
    = record tr (Bol_Strat.history sb).
Proof.
  intro Hc.
  unfold AdaptivePositionSizer.notify_trade, RSI_Strat.notify_trade,
    Bol_Strat.notify_trade.
  rewrite Hc. repeat split.
Qed.

(** C10.  Sign invariant of the trade-outcome history, for
    [AdaptivePositionSizer], [RSI_Strat] and [Bol_Strat]: after any sequence
    of trade notifications to a new object every element of the wins list is
    [>= 0] and every element of the losses list is [<= 0].  A closed trade
    with a positive net result and a zero open value adds the value 0 to the
    wins; a closed trade with a net result of exactly 0 adds its return to
    the losses (and nothing to the wins). *)
Theorem history_signs
    (pr : RSI_Strat.Params) (pb : Bol_Strat.Params) (trs : list Trade)
    (tr : Trade) (h : TradeHistory.t)
    (sr : RSI_Strat.State) (sb : Bol_Strat.State) :
  (signed (sizer trs) /\ signed (rsi pr trs) /\ signed (bol pb trs)) /\
  (isclosed tr = true -> 0 < pnlcomm tr -> value tr == 0 ->
   let after := fun h0 : TradeHistory.t => last_n 100 (wins h0 ++ [0]) in
   wins (AdaptivePositionSizer.notify_trade tr h) = after h /\
   wins (RSI_Strat.history (fst (RSI_Strat.notify_trade pr tr sr)))
     = after (RSI_Strat.history sr) /\
   wins (Bol_Strat.history (fst (Bol_Strat.notify_trade pb tr sb)))
     = after (Bol_Strat.history sb)) /\
  (isclosed tr = true -> pnlcomm tr == 0 ->
   let after := fun h0 : TradeHistory.t =>
     (last_n 100 (wins h0), last_n 100 (losses h0 ++ [trade_return tr])) in
   let both := fun h0 : TradeHistory.t => (wins h0, losses h0) in
   both (AdaptivePositionSizer.notify_trade tr h) = after h /\
   both (RSI_Strat.history (fst (RSI_Strat.notify_trade pr tr sr)))
     = after (RSI_Strat.history sr) /\
   both (Bol_Strat.history (fst (Bol_Strat.notify_trade pb tr sb)))
     = after (Bol_Strat.history sb)).
Proof.
  split; [|split].
  - rewrite rsi_sizer, bol_sizer. repeat split; apply sizer_signed.
  - intros Hc Hp Hv after.
    destruct (notify_trade_closed pr pb tr h sr sb Hc) as [E1 [E2 E3]].
    rewrite E1, E2, E3. subst after. cbv beta.
    assert (Hw : ltb 0 (pnlcomm tr) = true) by (apply ltb_true; exact Hp).
    assert (Hr : trade_return tr = 0).
    { unfold trade_return. apply eqb_true in Hv. rewrite Hv. reflexivity. }
    rewrite <- Hr.
    repeat split; apply (record_win tr _ Hw).
  - intros Hc Hp after both.
    destruct (notify_trade_closed pr pb tr h sr sb Hc) as [E1 [E2 E3]].
    rewrite E1, E2, E3. subst after both. cbv beta.
    assert (Hl : ltb 0 (pnlcomm tr) = false).
    { apply ltb_false. rewrite Hp. apply Qle_refl. }
    repeat split; f_equal; apply (record_loss tr _ Hl).
Qed.

Lemma history_signs_witness :
  (isclosed Scenario.zero_value_win = true /\
   0 < pnlcomm Scenario.zero_value_win /\
   value Scenario.zero_value_win == 0 /\
   wins (AdaptivePositionSizer.notify_trade Scenario.zero_value_win empty)
     = [0]) /\
  (isclosed Scenario.break_even = true /\
   pnlcomm Scenario.break_even == 0 /\
   (wins (AdaptivePositionSizer.notify_trade Scenario.break_even empty),
    losses (AdaptivePositionSizer.notify_trade Scenario.break_even empty))
     = ([], [trade_return Scenario.break_even])).
Proof.
  assert (H1 : isclosed Scenario.zero_value_win = true) by reflexivity.
  assert (H2 : 0 < pnlcomm Scenario.zero_value_win) by reflexivity.
  assert (H3 : value Scenario.zero_value_win == 0) by reflexivity.
  assert (H4 : isclosed Scenario.break_even = true) by reflexivity.
  assert (H5 : pnlcomm Scenario.break_even == 0) by reflexivity.
  split.
  - repeat (split; [assumption|]).
    exact (proj1 (proj1 (proj2
             (history_signs RSI_Strat.default_params Bol_Strat.default_params
                [] Scenario.zero_value_win empty RSI_Strat.init
                Bol_Strat.init)) H1 H2 H3)).
  - repeat (split; [assumption|]).
    exact (proj1 (proj2 (proj2
             (history_signs RSI_Strat.default_params Bol_Strat.default_params
                [] Scenario.break_even empty RSI_Strat.init
                Bol_Strat.init)) H4 H5)).
Defined.

End HistoryFacts.

(* ------------------------------------------------------------------------- *)
(** ** The order lifecycle *)
(* ------------------------------------------------------------------------- *)

Module LifecycleFacts.
Import Py Bt Lifecycle Pending.

Ltac break_match_hyp H :=
  match type of H with
  | context [match ?x with _ => _ end] => destruct x eqn:?
  end.

Ltac break_match_goal :=
  match goal with
  | |- context [match ?x with _ => _ end] => destruct x eqn:?
  end.

Lemma submitted_app (e1 e2 : list event) :
  submitted (e1 ++ e2) = submitted e1 ++ submitted e2.
Proof.
  induction e1 as [|e e1 IH]; [reflexivity|].
  destruct e; cbn [app submitted]; rewrite IH; reflexivity.
Qed.

Lemma submitted_log_if (b : bool) (l : LogLine) : submitted (log_if b l) = [].
Proof. destruct b; reflexivity. Qed.

Lemma place_submitted (s : Side) (size : Q) (o : option Handle)
    (evs : list event) :
  place s size = (o, evs) -> submitted evs = opt_list o.
Proof.
  unfold place. destruct (eqb size 0); intro H; injection H as <- <-;
    reflexivity.
Qed.

Lemma rsi_size_logs (p : RSI_Strat.Params) (a : Account) (b : RSI_Strat.Bar)
    (self : RSI_Strat.State) (size : Q) (logs : list event) :
  RSI_Strat.calculate_position_size p a b self = Ok (size, logs) ->
  submitted logs = [].
Proof.
  unfold RSI_Strat.calculate_position_size, bind. intro H.
  repeat break_match_hyp H; try discriminate H;
    injection H as <- <-; try reflexivity; apply submitted_log_if.
Qed.

Lemma bol_size_logs (p : Bol_Strat.Params) (a : Account) (b : Bol_Strat.Bar)
    (self : Bol_Strat.State) (size : Q) (logs : list event) :
  Bol_Strat.calculate_position_size p a b self = Ok (size, logs) ->
  submitted logs = [].
Proof.
  unfold Bol_Strat.calculate_position_size, bind. intro H.
  repeat break_match_hyp H; try discriminate H;
    injection H as <- <-; try reflexivity; apply submitted_log_if.
Qed.

Lemma rsi_next_submits (p : RSI_Strat.Params) (a : Account)
    (b : RSI_Strat.Bar) (self self' : RSI_Strat.State) (evs : list event) :
  RSI_Strat.order self = None ->
  RSI_Strat.next p a b self = Ok (self', evs) ->
  submitted evs = opt_list (RSI_Strat.order self').
Proof.
  intros Hn H. unfold RSI_Strat.next in H. rewrite Hn in H.
  destruct (flat a).
  - destruct (ltb _ _).
    + destruct (RSI_Strat.calculate_position_size p a b self)
        as [[size logs]|e] eqn:Es; cbn [bind] in H; [|discriminate H].
      destruct (buy size) as [o es] eqn:Eb.
      injection H as <- <-. cbn [RSI_Strat.set_order RSI_Strat.order].
      rewrite !submitted_app, submitted_log_if, (rsi_size_logs _ _ _ _ _ _ Es).
      rewrite app_nil_r. exact (place_submitted _ _ _ _ Eb).
    + injection H as <- <-. rewrite Hn. reflexivity.
  - destruct (ltb _ _).
    + destruct (sell (position a)) as [o es] eqn:Eb.
      injection H as <- <-. cbn [RSI_Strat.set_order RSI_Strat.order].
      rewrite submitted_app, submitted_log_if, app_nil_r.
      exact (place_submitted _ _ _ _ Eb).
    + injection H as <- <-. rewrite Hn. reflexivity.
Qed.

Lemma bol_next_submits (p : Bol_Strat.Params) (a : Account)
    (b : Bol_Strat.Bar) (self self' : Bol_Strat.State) (evs : list event) :
  Bol_Strat.order self = None ->
  Bol_Strat.next p a b self = Ok (self', evs) ->
  submitted evs = opt_list (Bol_Strat.order self').
Proof.
  intros Hn H. unfold Bol_Strat.next in H. rewrite Hn in H.
  destruct (flat a).
  - destruct (ltb _ _).
    + destruct (Bol_Strat.calculate_position_size p a b self)
        as [[size logs]|e] eqn:Es; cbn [bind] in H; [|discriminate H].
      destruct (buy size) as [o es] eqn:Eb.
      injection H as <- <-. cbn [Bol_Strat.set_order Bol_Strat.order].
      rewrite !submitted_app, submitted_log_if, (bol_size_logs _ _ _ _ _ _ Es).
      rewrite app_nil_r. exact (place_submitted _ _ _ _ Eb).
    + injection H as <- <-. rewrite Hn. reflexivity.
  - destruct (Bol_Strat.exit_check p b self) as [should_exit reason].
    destruct should_exit.
    + destruct (sell (position a)) as [o es] eqn:Eb.
      injection H as <- <-. cbn [Bol_Strat.set_order Bol_Strat.order].
      rewrite submitted_app, submitted_log_if, app_nil_r.
      exact (place_submitted _ _ _ _ Eb).
    + injection H as <- <-. rewrite Hn. reflexivity.
Qed.

Lemma rand_next_submits (R : PyRandom.Generator) (p : Rand_Strat.Params)
    (a : Account) (b : Rand_Strat.Bar) (self self' : Rand_Strat.State)
    (g g' : PyRandom.gen R) (evs : list event) :
  Rand_Strat.order self = None ->
  Rand_Strat.next R p a b self g = Ok (self', g', evs) ->
  submitted evs = opt_list (Rand_Strat.order self').
Proof.
  intros Hn H. unfold Rand_Strat.next in H. rewrite Hn in H.
  set (self1 := if negb (flat a) then _ else self) in H.
  assert (Hn1 : Rand_Strat.order self1 = None).
  { subst self1. destruct (negb (flat a)); exact Hn. }
  clearbody self1.
  destruct (PyRandom.random R g) as [u g1].
  destruct (negb (ltb u _)).
  - injection H as <- <- <-. rewrite Hn1. reflexivity.
  - destruct (flat a).
    + destruct (div _ _) as [size|e]; cbn [bind] in H; [|discriminate H].
      destruct (buy size) as [o es] eqn:Eb.
      injection H as <- <- <-. cbn [Rand_Strat.set_order Rand_Strat.order].
      rewrite submitted_app, submitted_log_if, app_nil_r.
      exact (place_submitted _ _ _ _ Eb).
    + destruct (_ <=? _)%Z.
      * destruct (sell (position a)) as [o es] eqn:Eb.
        injection H as <- <- <-. cbn [Rand_Strat.set_order Rand_Strat.order].
        rewrite submitted_app, submitted_log_if, app_nil_r.
        exact (place_submitted _ _ _ _ Eb).
      * injection H as <- <- <-. rewrite Hn1. reflexivity.
Qed.

Lemma rsi_lawful (p : RSI_Strat.Params) : Lawful (RSI p).
Proof.
  constructor; cbn [RSI pending on_bar on_order on_trade].
  - intros a b s h H. unfold RSI_Strat.next. rewrite H. reflexivity.
  - intros a b s s' evs. apply rsi_next_submits.
  - intros o s H. unfold RSI_Strat.notify_order.
    destruct (status o); try discriminate H; reflexivity.
  - intros o s H. unfold RSI_Strat.notify_order.
    destruct (status o); try discriminate H; try reflexivity.
    destruct (isbuy o); reflexivity.
  - intros t s. unfold RSI_Strat.notify_trade.
    destruct (negb (isclosed t)); reflexivity.
Qed.

Lemma bol_lawful (p : Bol_Strat.Params) : Lawful (Bol p).
Proof.
  constructor; cbn [Bol pending on_bar on_order on_trade].
  - intros a b s h H. unfold Bol_Strat.next. rewrite H. reflexivity.
  - intros a b s s' evs. apply bol_next_submits.
  - intros o s H. unfold Bol_Strat.notify_order.
    destruct (status o); try discriminate H; reflexivity.
  - intros o s H. unfold Bol_Strat.notify_order.
    destruct (status o); try discriminate H; try reflexivity.
    destruct (isbuy o); reflexivity.
  - intros t s. unfold Bol_Strat.notify_trade.
    destruct (negb (isclosed t)); reflexivity.
Qed.

Lemma rand_lawful (R : PyRandom.Generator) (p : Rand_Strat.Params) :
  Lawful (Rand R p).
Proof.
  constructor; cbn [Rand pending on_bar on_order on_trade].
  - intros a b [s g] h H. cbn [fst snd] in *.
    unfold Rand_Strat.next. rewrite H. reflexivity.
  - intros a b [s g] [s' g'] evs Hn H. cbn [fst snd] in *.
    destruct (Rand_Strat.next R p a b s g) as [[[s1 g1] e1]|e] eqn:En;
      cbn [bind] in H; [|discriminate H].
    injection H as <- <- <-. exact (rand_next_submits _ _ _ _ _ _ _ _ _ Hn En).
  - intros o [s g] H. cbn [fst snd]. unfold Rand_Strat.notify_order.
    destruct (status o); try discriminate H; reflexivity.
  - intros o [s g] H. cbn [fst snd]. unfold Rand_Strat.notify_order.
    destruct (status o); try discriminate H; try reflexivity.
    destruct (isbuy o); reflexivity.
  - intros t [s g]. cbn [fst snd]. unfold Rand_Strat.notify_trade.
    destruct (negb (isclosed t)); reflexivity.
Qed.

Section Invariant.
Variable E : Strategy.
Hypothesis law : Lawful E.

Lemma in_step_short (w : World E) : in_step w -> (length (book w) <= 1)%nat.
Proof.
  unfold in_step. intro H. rewrite H.
  destruct (pending E (eng w)); cbn [opt_list length]; lia.
Qed.

(** Every delivery keeps the book and [self.order] in step. *)
Lemma step_in_step (i : Input E) (w w' : World E) :
  in_step w -> step E i w = Some w' -> in_step w'.
Proof.
  unfold in_step. intros Hw H. destruct i as [cash value b|n st price comm|t].
  - cbn [step] in H.
    set (a := {| get_cash := cash; getvalue := value; position := pos w |}) in H.
    destruct (on_bar E a b (eng w)) as [[e evs]|x] eqn:Eb; [|discriminate H].
    injection H as <-. cbn [book eng].
    destruct (pending E (eng w)) as [h|] eqn:Ep.
    + rewrite (bar_skip E law a b _ h Ep) in Eb. injection Eb as <- <-.
      rewrite Hw, Ep. reflexivity.
    + rewrite (bar_submit E law a b _ _ _ Ep Eb), Hw. reflexivity.
  - cbn [step] in H.
    destruct (nth_error (book w) n) as [h|] eqn:En; [|discriminate H].
    rewrite Hw in En.
    destruct (pending E (eng w)) as [h0|] eqn:Ep; cbn [opt_list] in En;
      [|destruct n; discriminate En].
    destruct n as [|n]; [|destruct n; discriminate En].
    destruct st; injection H as <-; cbn [book eng];
      first [ rewrite (order_keep E law) by reflexivity; rewrite Hw, Ep;
              reflexivity
            | rewrite (order_clear E law) by reflexivity; rewrite Hw;
              reflexivity ].
  - cbn [step] in H. injection H as <-. cbn [book eng].
    rewrite (trade_keep E law). exact Hw.
Qed.

Lemma run_in_step (inputs : list (Input E)) (w w' : World E) :
  in_step w -> run E inputs w = Some w' -> in_step w'.
Proof.
  revert w. induction inputs as [|i inputs IH]; intros w Hw H; cbn [run] in H.
  - injection H as <-. exact Hw.
  - destruct (step E i w) as [w1|] eqn:Es; [|discriminate H].
    exact (IH w1 (step_in_step i w w1 Hw Es) H).
Qed.

Lemma reachable_in_step (e : St E) (w : World E) :
  pending E e = None -> reachable E e w -> in_step w.
Proof.
  intros He [inputs H]. apply (run_in_step inputs (start E e)); [|exact H].
  unfold in_step, start. cbn [book eng]. rewrite He. reflexivity.
Qed.

End Invariant.

(** C4.  Single outstanding order, for [RSI_Strat], [Bol_Strat] and
    [Rand_Strat]: while [self.order] holds an order, [next] returns at once,
    whatever the bar shows: it submits nothing, logs nothing and leaves the
    object (and, for [Rand_Strat], the generator) as it was.  Hence in every
    run from a new strategy the broker holds at most one open order of it. *)
Theorem single_outstanding_order
    (pr : RSI_Strat.Params) (pb : Bol_Strat.Params)
    (R : PyRandom.Generator) (pd : Rand_Strat.Params) :
  (forall a b self h,
     RSI_Strat.order self = Some h ->
     RSI_Strat.next pr a b self = Ok (self, [])) /\
  (forall a b self h,
     Bol_Strat.order self = Some h ->
     Bol_Strat.next pb a b self = Ok (self, [])) /\
  (forall a b self g h,
     Rand_Strat.order self = Some h ->
     Rand_Strat.next R pd a b self g = Ok (self, g, [])) /\
  (forall w,
     reachable (RSI pr) RSI_Strat.init w -> (length (book w) <= 1)%nat) /\
  (forall w,
     reachable (Bol pb) Bol_Strat.init w -> (length (book w) <= 1)%nat) /\
  (forall g w,
     reachable (Rand R pd) (Rand_Strat.init R pd g) w ->
     (length (book w) <= 1)%nat).
Proof.
  repeat split.
  - intros a b self h H. unfold RSI_Strat.next. rewrite H. reflexivity.
  - intros a b self h H. unfold Bol_Strat.next. rewrite H. reflexivity.
  - intros a b self g h H. unfold Rand_Strat.next. rewrite H. reflexivity.
  - intros w H. apply in_step_short.
    exact (reachable_in_step _ (rsi_lawful pr) RSI_Strat.init w eq_refl H).
  - intros w H. apply in_step_short.
    exact (reachable_in_step _ (bol_lawful pb) Bol_Strat.init w eq_refl H).
  - intros g w H. apply in_step_short.
    exact (reachable_in_step _ (rand_lawful R pd) (Rand_Strat.init R pd g) w
             eq_refl H).
Qed.

(** Two oversold bars in a row leave one open order, not two. *)
Lemma single_outstanding_order_witness :
  exists w,
    run _ Scenario.two_triggers (start Scenario.rsi_default RSI_Strat.init)
      = Some w /\
    length (book w) = 1%nat /\
    (length (book w) <= 1)%nat.
Proof.
  eexists. split; [vm_compute; reflexivity|]. split; [reflexivity|].
  apply (proj1 (proj2 (proj2 (proj2
           (single_outstanding_order RSI_Strat.default_params
              Bol_Strat.default_params TwoRuns.replay
              Rand_Strat.default_params))))).
  exists Scenario.two_triggers. vm_compute. reflexivity.
Defined.

(** C8.  Rejection atomicity, for [RSI_Strat], [Bol_Strat] and
    [Rand_Strat]: on a Canceled, Margin or Rejected notification
    [notify_order] clears [self.order], leaves every other attribute (entry
    price and commission, holding-bar counter, wins/losses history) as it
    was, and submits no order; the broker's position does not move. *)
Theorem rejection_atomic
    (pr : RSI_Strat.Params) (pb : Bol_Strat.Params) (pd : Rand_Strat.Params)
    (o : Order) (sr : RSI_Strat.State) (sb : Bol_Strat.State)
    (sd : Rand_Strat.State) :
  failed (status o) = true ->
  (let (sr', evs) := RSI_Strat.notify_order pr o sr in
   RSI_Strat.order sr' = None /\
   RSI_Strat.buy_price sr' = RSI_Strat.buy_price sr /\
   RSI_Strat.buy_comm sr' = RSI_Strat.buy_comm sr /\
   RSI_Strat.history sr' = RSI_Strat.history sr /\
   RSI_Strat.min_trades_for_kelly sr' = RSI_Strat.min_trades_for_kelly sr /\
   submitted evs = []) /\
  (let (sb', evs) := Bol_Strat.notify_order pb o sb in
   Bol_Strat.order sb' = None /\
   Bol_Strat.entry_price sb' = Bol_Strat.entry_price sb /\
   Bol_Strat.entry_comm sb' = Bol_Strat.entry_comm sb /\
   Bol_Strat.history sb' = Bol_Strat.history sb /\
   Bol_Strat.min_trades_for_kelly sb' = Bol_Strat.min_trades_for_kelly sb /\
   submitted evs = []) /\
  (let (sd', evs) := Rand_Strat.notify_order pd o sd in
   Rand_Strat.order sd' = None /\
   Rand_Strat.bar_count_in_position sd' = Rand_Strat.bar_count_in_position sd /\
   submitted evs = []) /\
  (forall (E : Strategy) (w w' : World E) n price comm,
     step E (OnOrder n (status o) price comm) w = Some w' ->
     pos w' = pos w).
Proof.
  intro H. unfold RSI_Strat.notify_order, Bol_Strat.notify_order,
    Rand_Strat.notify_order.
  destruct (status o); try discriminate H;
    (repeat split; try apply submitted_log_if;
     intros E w w' n price comm Hs; cbn [step] in Hs;
     destruct (nth_error (book w) n); [|discriminate Hs];
     injection Hs as <-; reflexivity).
Qed.

Lemma rejection_atomic_witness :
  failed (status Scenario.rejected_buy) = true /\
  (let (sr', evs) :=
     RSI_Strat.notify_order RSI_Strat.default_params Scenario.rejected_buy
       Scenario.waiting in
   RSI_Strat.order sr' = None /\
   RSI_Strat.buy_price sr' = RSI_Strat.buy_price Scenario.waiting /\
   RSI_Strat.buy_comm sr' = RSI_Strat.buy_comm Scenario.waiting /\
   RSI_Strat.history sr' = RSI_Strat.history Scenario.waiting /\
   RSI_Strat.min_trades_for_kelly sr'
     = RSI_Strat.min_trades_for_kelly Scenario.waiting /\
   submitted evs = []).
Proof.
  assert (H : failed (status Scenario.rejected_buy) = true) by reflexivity.
  split; [exact H|].
  exact (proj1 (rejection_atomic RSI_Strat.default_params
                  Bol_Strat.default_params Rand_Strat.default_params
                  Scenario.rejected_buy Scenario.waiting Bol_Strat.init
                  (fst (Rand_Strat.init TwoRuns.replay
                          Rand_Strat.default_params []))
                  H)).
Defined.

End LifecycleFacts.

(* ------------------------------------------------------------------------- *)
(** ** The exit chain of [Bol_Strat] *)
(* ------------------------------------------------------------------------- *)

Module BolFacts.
Import Py PyFacts Bt Bol_Strat.

(** Once the stop-loss branch of the chain is entered (a stop loss is
    configured and an entry price is set) the take-profit branch is not
    evaluated: if the stop is not hit there is no exit, whatever the
    take-profit setting. *)
Lemma exit_check_stop_loss_armed (p : Params) (b : Bar) (self : State) :
  ltb (bb_top b) (close b) = false ->
  exit_on_middle p && ltb (bb_mid b) (close b) = false ->
  truthy (stop_loss_pct p) && truthy (entry_price self) = true ->
  ltb (close b) (val (entry_price self) * (1 - val (stop_loss_pct p) / 100))
    = false ->
  exit_check p b self = (false, NoReason).
Proof.
  intros H1 H2 H3 H4. unfold exit_check. rewrite H1, H2, H3, H4. reflexivity.
Qed.

(** Without a stop loss in force, the take-profit condition fires as the
    fourth link of the chain: the position is sold in full. *)
Theorem take_profit_without_stop_loss
    (p : Params) (a : Account) (b : Bar) (self : State) :
  order self = None ->
  flat a = false ->
  ltb (bb_top b) (close b) = false ->
  exit_on_middle p && ltb (bb_mid b) (close b) = false ->
  truthy (stop_loss_pct p) && truthy (entry_price self) = false ->
  truthy (take_profit_pct p) && truthy (entry_price self) = true ->
  val (entry_price self) * (1 + val (take_profit_pct p) / 100) < close b ->
  let h := {| h_side := Sell; h_size := abs (position a) |} in
  let target := val (entry_price self) * (1 + val (take_profit_pct p) / 100) in
  next p a b self
  = Ok (set_order (Some h) self,
        [Submit h] ++
        log_if (printlog p) (SELL_SIGNAL_REASON (TakeProfit (close b) target))).
Proof.
  intros Ho Hf H1 H2 H3 H4 H5 h target. apply ltb_true in H5.
  unfold next, exit_check. rewrite Ho, Hf, H1, H2, H3, H4, H5.
  unfold sell, place. unfold flat in Hf. rewrite Hf. reflexivity.
Qed.

Lemma take_profit_without_stop_loss_witness :
  let p := Scenario.take_profit_only in
  let self := Scenario.long_at_100 in
  let a := Scenario.holding_one in
  let b := Scenario.close_120 in
  val (entry_price self) * (1 + val (take_profit_pct p) / 100) < close b /\
  next p a b self
  = Ok (set_order (Some {| h_side := Sell; h_size := abs (position a) |}) self,
        [Submit {| h_side := Sell; h_size := abs (position a) |}] ++
        log_if (printlog p)
          (SELL_SIGNAL_REASON
             (TakeProfit (close b)
                (val (entry_price self)
                 * (1 + val (take_profit_pct p) / 100))))).
Proof.
  cbv zeta.
  assert (H : val (entry_price Scenario.long_at_100)
              * (1 + val (take_profit_pct Scenario.take_profit_only) / 100)
              < close Scenario.close_120) by reflexivity.
  split; [exact H|].
  exact (take_profit_without_stop_loss Scenario.take_profit_only
           Scenario.holding_one Scenario.close_120 Scenario.long_at_100
           eq_refl eq_refl eq_refl eq_refl eq_refl eq_refl H).
Defined.

(** Exit priority: a close above the upper band exits with the upper-band
    reason, whatever the middle band, the stop loss and the take profit
    say. *)
Theorem upper_band_first (p : Params) (b : Bar) (self : State) :
  bb_top b < close b ->
  exit_check p b self = (true, UpperBand (close b) (bb_top b)).
Proof.
  intro H. apply ltb_true in H. unfold exit_check. rewrite H. reflexivity.
Qed.

Lemma upper_band_first_witness :
  bb_top Scenario.close_140 < close Scenario.close_140 /\
  exit_check Scenario.both_limits Scenario.close_140 Scenario.long_at_100
  = (true, UpperBand 140 130).
Proof.
  assert (H : bb_top Scenario.close_140 < close Scenario.close_140)
    by reflexivity.
  split; [exact H|].
  exact (upper_band_first Scenario.both_limits Scenario.close_140
           Scenario.long_at_100 H).
Defined.

(** C1 fails on the code.  With both a stop loss and a take profit
    configured, the strategy is long from 100 and the bar closes at 120:
    no order is pending, the take profit is configured, the entry price is
    set, 120 is above the target 110, and neither band condition nor the
    stop loss (95) fires.  [next] does not sell: it returns with the object
    unchanged and nothing submitted or logged. *)
Theorem take_profit_masked_by_stop_loss :
  let p := Scenario.both_limits in
  let self := Scenario.long_at_100 in
  let a := Scenario.holding_one in
  let b := Scenario.close_120 in
  (order self = None /\
   flat a = false /\
   truthy (take_profit_pct p) = true /\
   truthy (entry_price self) = true /\
   ltb (val (entry_price self) * (1 + val (take_profit_pct p) / 100)) (close b)
     = true /\
   ltb (bb_top b) (close b) = false /\
   exit_on_middle p && ltb (bb_mid b) (close b) = false /\
   ltb (close b) (val (entry_price self) * (1 - val (stop_loss_pct p) / 100))
     = false) /\
  next p a b self = Ok (self, []).
Proof.
  cbv zeta. split.
  - repeat split; reflexivity.
  - vm_compute. reflexivity.
Qed.

End BolFacts.

(* ------------------------------------------------------------------------- *)
(** ** Entry price and position *)
(* ------------------------------------------------------------------------- *)

Module EntryPriceFacts.
Import Py PyFacts Bt Lifecycle Pending.

(** C2 fails on [RSI_Strat].  Buy on an oversold bar, fill at 100, sell on
    an overbought bar, fill at 110: the run ends flat, with no open order,
    and [buy_price] still holds the price of the buy. *)
Theorem rsi_buy_price_survives_sell :
  exists w,
    run Scenario.rsi_default Scenario.round_trip
      (start Scenario.rsi_default RSI_Strat.init) = Some w /\
    pos w == 0 /\
    book w = [] /\
    RSI_Strat.order (eng w) = None /\
    RSI_Strat.buy_price (eng w) = Some 100.
Proof.
  eexists. split; [vm_compute; reflexivity|].
  repeat split; reflexivity.
Qed.

(** [Bol_Strat.next] leaves the entry price alone, and an order it places
    fits the position it was placed from. *)
Lemma bol_next_order (p : Bol_Strat.Params) (a : Account) (b : Bol_Strat.Bar)
    (self self' : Bol_Strat.State) (evs : list event) :
  Bol_Strat.order self = None ->
  0 <= position a ->
  Bol_Strat.next p a b self = Ok (self', evs) ->
  Bol_Strat.entry_price self' = Bol_Strat.entry_price self /\
  (forall h, Bol_Strat.order self' = Some h ->
     match h_side h with
     | Buy => position a == 0 /\ 0 < h_size h
     | Sell => h_size h == position a /\ 0 < position a
     end).
Proof.
  intros Hn Hpos H. unfold Bol_Strat.next in H. rewrite Hn in H.
  unfold flat in H. destruct (eqb (position a) 0) eqn:Ef.
  - apply eqb_true in Ef. destruct (ltb _ _).
    + destruct (Bol_Strat.calculate_position_size p a b self)
        as [[size logs]|e]; cbn [bind] in H; [|discriminate H].
      unfold buy, place in H. destruct (eqb size 0) eqn:Ez;
        injection H as <- <-; cbn [Bol_Strat.set_order Bol_Strat.order
                                   Bol_Strat.entry_price];
        (split; [reflexivity|]); intros h Hh; [discriminate Hh|].
      injection Hh as <-. cbn [h_side h_size]. split; [exact Ef|].
      apply HistoryFacts.abs_pos. apply eqb_false. exact Ez.
    + injection H as <- <-. split; [reflexivity|].
      intros h Hh. rewrite Hn in Hh. discriminate Hh.
  - apply eqb_false in Ef.
    destruct (Bol_Strat.exit_check p b self) as [should_exit reason].
    destruct should_exit.
    + unfold sell, place in H. destruct (eqb (position a) 0) eqn:Ez;
        injection H as <- <-; cbn [Bol_Strat.set_order Bol_Strat.order
                                   Bol_Strat.entry_price];
        (split; [reflexivity|]); intros h Hh; [discriminate Hh|].
      injection Hh as <-. cbn [h_side h_size]. split.
      * unfold abs. apply Qabs_pos. exact Hpos.
      * apply Qle_lteq in Hpos. destruct Hpos as [Hlt | Heq]; [exact Hlt|].
        exfalso. apply Ef. symmetry. exact Heq.
    + injection H as <- <-. split; [reflexivity|].
      intros h Hh. rewrite Hn in Hh. discriminate Hh.
Qed.

Lemma bol_step_consistent (p : Bol_Strat.Params) (i : Input (Bol p))
    (w w' : World (Bol p)) :
  bol_consistent w -> step (Bol p) i w = Some w' -> bol_consistent w'.
Proof.
  intros [Hs [Hp [He Ho]]] H.
  assert (Hs' : in_step w').
  { exact (LifecycleFacts.step_in_step (Bol p) (LifecycleFacts.bol_lawful p)
             i w w' Hs H). }
  unfold bol_consistent. split; [exact Hs'|]. clear Hs'.
  destruct i as [cash value b|n st price comm|t]; cbn [step] in H.
  - set (a := {| get_cash := cash; getvalue := value; position := pos w |}) in H.
    cbn [Bol on_bar] in H.
    destruct (Bol_Strat.next p a b (eng w)) as [[e evs]|x] eqn:Eb;
      [|discriminate H].
    injection H as <-. cbn [pos eng].
    destruct (Bol_Strat.order (eng w)) as [h0|] eqn:Ep.
    + unfold Bol_Strat.next in Eb. rewrite Ep in Eb. injection Eb as <- <-.
      split; [exact Hp|]. split; [exact He|]. rewrite Ep. exact Ho.
    + destruct (bol_next_order p a b _ _ _ Ep Hp Eb) as [E1 E2].
      split; [exact Hp|]. split; [rewrite E1; exact He|]. exact E2.
  - destruct (nth_error (book w) n) as [h|] eqn:En; [|discriminate H].
    unfold in_step in Hs. rewrite Hs in En. cbn [Bol pending] in En.
    destruct (Bol_Strat.order (eng w)) as [h0|] eqn:Ep; cbn [opt_list] in En;
      [|destruct n; discriminate En].
    destruct n as [|n]; [|destruct n; discriminate En].
    injection En as ->. specialize (Ho h eq_refl).
    cbn [Bol on_order] in H. unfold Bol_Strat.notify_order, notice in H.
    cbn [status isbuy executed] in H. unfold is_buy, fill in *.
    destruct st; injection H as <-; cbn [pos eng fst];
      try (split; [exact Hp|]; split; [exact He|]; rewrite Ep;
           intros h1 Hh; injection Hh as <-; exact Ho);
      try (cbn [Bol_Strat.set_order Bol_Strat.order Bol_Strat.entry_price];
           split; [exact Hp|]; split; [exact He|];
           intros h1 Hh; discriminate Hh).
    destruct (h_side h); destruct Ho as [Ho1 Ho2];
      cbn [fst Bol_Strat.set_order Bol_Strat.set_entry_price
           Bol_Strat.set_entry_comm Bol_Strat.order Bol_Strat.entry_price].
    + split; [lra|]. split.
      * split; [intro Hx; discriminate Hx | intro Hx; exfalso; lra].
      * intros h1 Hh. discriminate Hh.
    + split; [lra|]. split.
      * split; [intros _; lra | reflexivity].
      * intros h1 Hh. discriminate Hh.
  - injection H as <-. cbn [pos eng Bol on_trade].
    unfold Bol_Strat.notify_trade.
    destruct (negb (isclosed t)); cbn [fst]; repeat split; try assumption;
      try apply He; cbn [Bol_Strat.set_history Bol_Strat.entry_price
                         Bol_Strat.order]; try apply He; exact Ho.
Qed.

Lemma bol_run_consistent (p : Bol_Strat.Params) (inputs : list (Input (Bol p)))
    (w w' : World (Bol p)) :
  bol_consistent w -> run (Bol p) inputs w = Some w' -> bol_consistent w'.
Proof.
  revert w. induction inputs as [|i inputs IH]; intros w Hw H; cbn [run] in H.
  - injection H as <-. exact Hw.
  - destruct (step (Bol p) i w) as [w1|] eqn:Es; [|discriminate H].
    exact (IH w1 (bol_step_consistent p i w w1 Hw Es) H).
Qed.

(** [Bol_Strat] keeps the invariant that [RSI_Strat] breaks: in every run
    from a new strategy the entry price is [None] exactly when the position
    is zero. *)
Theorem bol_entry_price_iff_position (p : Bol_Strat.Params)
    (w : World (Bol p)) :
  reachable (Bol p) Bol_Strat.init w ->
  (Bol_Strat.entry_price (eng w) = None <-> pos w == 0).
Proof.
  intros [inputs H].
  assert (H0 : bol_consistent (start (Bol p) Bol_Strat.init)).
  { unfold bol_consistent, in_step, start. cbn.
    repeat split; try reflexivity; try apply Qle_refl.
    intros h Hh. discriminate Hh. }
  exact (proj1 (proj2 (proj2 (bol_run_consistent p inputs _ w H0 H)))).
Qed.

Lemma bol_entry_price_iff_position_witness :
  exists w,
    run Scenario.bol_default Scenario.bol_entry
      (start Scenario.bol_default Bol_Strat.init) = Some w /\
    0 < pos w /\
    (Bol_Strat.entry_price (eng w) = None <-> pos w == 0).
Proof.
  eexists. split; [vm_compute; reflexivity|]. split; [reflexivity|].
  apply (bol_entry_price_iff_position Bol_Strat.default_params).
  exists Scenario.bol_entry. vm_compute. reflexivity.
Defined.

(** The scenario of section 8 of the specification.  Flat, RSI 15 under the
    threshold 20: one buy order, sized by the fixed fraction
    (1000 * 0.02 / 100 = 0.2).  Its completion sets the buy price and the
    position.  Then RSI 85 over the threshold 80: one sell order for the
    whole position. *)
Example rsi_scenario :
  exists (w1 w2 w3 : World Scenario.rsi_default) (h : Handle),
    step Scenario.rsi_default
      (OnBar (E := Scenario.rsi_default) 1000 1000 Scenario.oversold)
      (start Scenario.rsi_default RSI_Strat.init) = Some w1 /\
    (exists b, book w1 = [b] /\ h_side b = Buy /\ h_size b == 1 # 5) /\
    step Scenario.rsi_default (OnOrder 0 Completed 100 0) w1 = Some w2 /\
    RSI_Strat.buy_price (eng w2) = Some 100 /\
    RSI_Strat.order (eng w2) = None /\
    pos w2 == 1 # 5 /\
    step Scenario.rsi_default
      (OnBar (E := Scenario.rsi_default) 980 1002 Scenario.overbought) w2
      = Some w3 /\
    book w3 = [h] /\ h_side h = Sell /\ h_size h == pos w2.
Proof.
  do 4 eexists.
  split; [vm_compute; reflexivity|].
  split; [eexists; repeat split; reflexivity|].
  split; [vm_compute; reflexivity|].
  do 3 (split; [reflexivity|]).
  split; [vm_compute; reflexivity|].
  repeat split; reflexivity.
Qed.

End EntryPriceFacts.

(* ------------------------------------------------------------------------- *)
(** ** [AdaptivePositionSizer._getsizing] *)
(* ------------------------------------------------------------------------- *)

Module SizerFacts.
Import Py PyFacts Bt PositionSizer AdaptivePositionSizer.

(** [kelly_criterion] never raises: its guards leave a negative average
    loss and a positive average win, so neither divisor is zero. *)
Lemma kelly_criterion_total (win_rate avg_win avg_loss L fraction : Q) :
  exists k, kelly_criterion win_rate avg_win avg_loss L fraction = Ok k.
Proof.
  unfold kelly_criterion.
  destruct (ltb win_rate 0 || ltb 1 win_rate); [eexists; reflexivity|].
  destruct (leb 0 avg_loss || leb avg_win 0) eqn:G; [eexists; reflexivity|].
  destruct (eqb win_rate 0); [eexists; reflexivity|].
  destruct (eqb win_rate 1); [eexists; reflexivity|].
  apply orb_false_elim in G. destruct G as [G1 G2].
  apply leb_false in G1. apply leb_false in G2.
  assert (Hal0 : ~ avg_loss == 0) by (intro E; lra).
  assert (Haw0 : ~ avg_win == 0) by (intro E; lra).
  rewrite (KellyFacts.div_ok _ _ Hal0). cbn [bind].
  rewrite (KellyFacts.div_ok _ _
             (KellyFacts.abs_nonzero _
                (KellyFacts.quotient_nonzero _ _ Haw0 Hal0))).
  cbn [bind]. eexists. reflexivity.
Qed.

Lemma len_cons_nonzero (x : Q) (l : list Q) : ~ len (x :: l) == 0.
Proof.
  unfold len, Qeq. cbn [Qnum Qden inject_Z length]. lia.
Qed.

Lemma count_nonzero (n : nat) :
  (0 <? n)%nat = true -> ~ inject_Z (Z.of_nat n) == 0.
Proof.
  intros H. apply Nat.ltb_lt in H.
  unfold Qeq. cbn [Qnum Qden inject_Z]. lia.
Qed.

(** The fraction before the clamp is always computed. *)
Lemma position_fraction_returns (p : Params) (self : State) :
  exists x,
    position_fraction p self
    = Ok (max (min_position p) (min x (max_position p))).
Proof.
  unfold position_fraction.
  destruct (String.eqb (method p) "kelly" && _); [|eexists; reflexivity].
  destruct (0 <? _)%nat eqn:Et.
  - rewrite (KellyFacts.div_ok _ _ (count_nonzero _ Et)). cbn [bind].
    destruct (TradeHistory.wins self) as [|w ws];
      destruct (TradeHistory.losses self) as [|l ls]; cbn [bind];
      repeat rewrite (KellyFacts.div_ok _ _ (len_cons_nonzero _ _));
      cbn [bind];
      match goal with
      | |- context [kelly_criterion ?a ?b ?c ?d ?e] =>
          destruct (kelly_criterion_total a b c d e) as [k ->]
      end; cbn [bind]; eexists; reflexivity.
  - cbn [bind].
    destruct (TradeHistory.wins self) as [|w ws];
      destruct (TradeHistory.losses self) as [|l ls]; cbn [bind];
      repeat rewrite (KellyFacts.div_ok _ _ (len_cons_nonzero _ _));
      cbn [bind];
      match goal with
      | |- context [kelly_criterion ?a ?b ?c ?d ?e] =>
          destruct (kelly_criterion_total a b c d e) as [k ->]
      end; cbn [bind]; eexists; reflexivity.
Qed.

(** C9, as stated, fails: nothing keeps [min_position] below
    [max_position], and with [min_position = 0.5], [max_position = 0.3] the
    fraction used for a buy is 0.5, above [max_position]. *)
Lemma getsizing_bounds_counterexample :
  ~ (forall (p : Params) (self : State) (f : Q),
       position_fraction p self = Ok f ->
       min_position p <= f /\ f <= max_position p).
Proof.
  intro H.
  destruct (H Scenario.crossed_bounds init (1 # 2) eq_refl) as [_ Hmax].
  vm_compute in Hmax. apply Hmax. reflexivity.
Qed.

(** C9, amended.  [_getsizing] postcondition: a sell request returns exactly
    the strategy's current position size.  For a buy request the capital
    fraction [f] that sizes the order is always computed, is never below
    [min_position], and is at most [max_position] provided
    [min_position <= max_position], whatever the Kelly computation or the
    fixed default gave; the returned size is [int(value * f / close)]. *)
Theorem getsizing_postcondition
    (p : Params) (self : State) (a : Account) (close : Q) :
  _getsizing p self a close false = Ok (position a) /\
  exists f,
    position_fraction p self = Ok f /\
    min_position p <= f /\
    (min_position p <= max_position p -> f <= max_position p) /\
    _getsizing p self a close true
    = (size <- div (getvalue a * f) close ;; Ok (inject_Z (int size))).
Proof.
  split; [reflexivity|].
  destruct (position_fraction_returns p self) as [x E].
  eexists. split; [exact E|]. split; [apply clamp_lower|].
  split; [apply clamp_upper|].
  unfold _getsizing. cbn [negb]. rewrite E. reflexivity.
Qed.

Lemma getsizing_postcondition_witness :
  min_position default_params <= max_position default_params /\
  exists f,
    position_fraction default_params init = Ok f /\
    f <= max_position default_params /\
    _getsizing default_params init Scenario.holding_one 120 true
    = (size <- div (getvalue Scenario.holding_one * f) 120 ;;
       Ok (inject_Z (int size))).
Proof.
  assert (H : min_position default_params <= max_position default_params)
    by (unfold Qle; simpl; lia).
  split; [exact H|].
  destruct (proj2 (getsizing_postcondition default_params init
                     Scenario.holding_one 120)) as [f [E [_ [Hmax Es]]]].
  exists f. split; [exact E|]. split; [exact (Hmax H) | exact Es].
Defined.

End SizerFacts.

(* ------------------------------------------------------------------------- *)
(** ** Seeded runs of [Rand_Strat] *)
(* ------------------------------------------------------------------------- *)

Module RandFacts.
Import Py Bt TwoRuns.

(** With a seed, [__init__] resets the generator of the process: what was
    there before is forgotten. *)
Lemma init_seeded (R : PyRandom.Generator) (p : Rand_Strat.Params) (x : Z)
    (g : PyRandom.gen R) :
  Rand_Strat.seed p = Some x ->
  Rand_Strat.init R p g
  = ({| Rand_Strat.order := None; Rand_Strat.bar_count_in_position := 0 |},
     PyRandom.seed R x).
Proof.
  intro H. unfold Rand_Strat.init. rewrite H. reflexivity.
Qed.

Lemma run_alone_seeded (R : PyRandom.Generator) (p : Rand_Strat.Params)
    (x : Z) (inputs : list Input) (g g' : PyRandom.gen R) :
  Rand_Strat.seed p = Some x ->
  run_alone R p inputs g = run_alone R p inputs g'.
Proof.
  intro H. unfold run_alone.
  rewrite (init_seeded R p x g H), (init_seeded R p x g' H). reflexivity.
Qed.

(** What two interleaved objects with seed 42 decide on one bar: the first
    draws 0.639... and does nothing, the second draws 0.025... and buys. *)
Example interleaved_decisions :
  run_interleaved replay Scenario.coin_flip Scenario.one_flat_bar []
  = Ok ([[]], [[ {| h_side := Buy; h_size := 2000 # 10000 |} ]]).
Proof. vm_compute. reflexivity. Qed.

(** C3, as stated, fails: two objects built with the same seed and fed the
    same bar, side by side in one process, draw from one shared generator
    and decide differently. *)
Lemma interleaved_runs_counterexample :
  ~ (forall (R : PyRandom.Generator) (p : Rand_Strat.Params)
            (inputs : list Input) (g : PyRandom.gen R) dA dB,
       Rand_Strat.seed p <> None ->
       run_interleaved R p inputs g = Ok (dA, dB) ->
       dA = dB).
Proof.
  intro H.
  assert (Hs : Rand_Strat.seed Scenario.coin_flip <> None) by discriminate.
  specialize (H replay Scenario.coin_flip Scenario.one_flat_bar [] _ _ Hs
                interleaved_decisions).
  discriminate H.
Qed.

(** C3, amended.  Random-variant determinism: the decisions of a
    [Rand_Strat] object constructed with a seed and run over its inputs with
    no other draw in between depend on the seed and the inputs alone, not on
    the state the generator of the process was in before; so two objects
    with the same seed, fed the same inputs one after the other, take the
    same decisions.  (The generator is the one of the process: objects that
    run side by side are not covered.) *)
Theorem seeded_runs_reproducible
    (R : PyRandom.Generator) (p : Rand_Strat.Params) (x : Z)
    (inputs : list Input) :
  Rand_Strat.seed p = Some x ->
  (forall g g', run_alone R p inputs g = run_alone R p inputs g') /\
  (forall g,
     run_sequential R p inputs g
     = match run_alone R p inputs g with
       | Ok (d, _) => Ok (d, d)
       | Raise e => Raise e
       end).
Proof.
  intro H. split.
  - intros g g'. exact (run_alone_seeded R p x inputs g g' H).
  - intro g. unfold run_sequential.
    destruct (run_alone R p inputs g) as [[d g1]|e] eqn:E; cbn [bind];
      [|reflexivity].
    rewrite (run_alone_seeded R p x inputs g1 g H), E. reflexivity.
Qed.

Lemma seeded_runs_reproducible_witness :
  Rand_Strat.seed Scenario.coin_flip = Some 42%Z /\
  run_sequential replay Scenario.coin_flip Scenario.one_flat_bar []
  = match run_alone replay Scenario.coin_flip Scenario.one_flat_bar [] with
    | Ok (d, _) => Ok (d, d)
    | Raise e => Raise e
    end.
Proof.
  assert (H : Rand_Strat.seed Scenario.coin_flip = Some 42%Z) by reflexivity.
  split; [exact H|].
  exact (proj2 (seeded_runs_reproducible replay Scenario.coin_flip 42
                  Scenario.one_flat_bar H) []).
Defined.

End RandFacts.

(* ------------------------------------------------------------------------- *)
(** ** More on [PositionSizer.kelly_criterion] *)
(* ------------------------------------------------------------------------- *)

Module KellyEdge.
Import Py PyFacts PositionSizer.

(** Both clamping builtins are monotone in the clamped value. *)
Lemma clamp_mono (lo x y hi : Q) :
  x <= y -> max lo (min x hi) <= max lo (min y hi).
Proof.
  intro H. unfold max, min.
  destruct (ltb hi x) eqn:E1; destruct (ltb hi y) eqn:E2;
    try apply ltb_true in E1; try apply ltb_false in E1;
    try apply ltb_true in E2; try apply ltb_false in E2;
    match goal with
    | |- (if ltb lo ?a then _ else _) <= (if ltb lo ?b then _ else _) =>
        destruct (ltb lo a) eqn:E3; destruct (ltb lo b) eqn:E4;
        try apply ltb_true in E3; try apply ltb_false in E3;
        try apply ltb_true in E4; try apply ltb_false in E4
    end; lra.
Qed.

(** The clamp is positive exactly when the value and the cap are. *)
Lemma clamp_pos (x hi : Q) : 0 < max 0 (min x hi) <-> 0 < x /\ 0 < hi.
Proof.
  unfold max, min.
  destruct (ltb hi x) eqn:E1;
    try apply ltb_true in E1; try apply ltb_false in E1;
    match goal with
    | |- 0 < (if ltb 0 ?a then _ else _) <-> _ =>
        destruct (ltb 0 a) eqn:E3;
        try apply ltb_true in E3; try apply ltb_false in E3
    end; split; intros; try split; try lra.
Qed.

(** The win/loss ratio of the formula: [abs(avg_win / avg_loss)] is
    [avg_win / -avg_loss] for a positive win and a negative loss. *)
Lemma win_loss_ratio (avg_win avg_loss : Q) :
  0 < avg_win -> avg_loss < 0 ->
  abs (avg_win / avg_loss) == avg_win / - avg_loss /\
  0 < abs (avg_win / avg_loss).
Proof.
  intros Hw Hl.
  assert (Hn : ~ avg_loss == 0) by (intro E; lra).
  assert (Hm : ~ - avg_loss == 0) by (intro E; lra).
  assert (E : avg_win / avg_loss == - (avg_win / - avg_loss)) by (field; lra).
  assert (Hp : 0 < avg_win / - avg_loss).
  { apply Qlt_shift_div_l; lra. }
  unfold abs. split.
  - rewrite E. rewrite Qabs_opp. apply Qabs_pos. lra.
  - rewrite E. rewrite Qabs_opp. rewrite Qabs_pos; lra.
Qed.

(** The value of the function strictly inside the valid range: the Kelly
    formula, scaled and clamped. *)
Lemma kelly_criterion_interior (win_rate avg_win avg_loss L fraction : Q) :
  0 < win_rate -> win_rate < 1 -> 0 < avg_win -> avg_loss < 0 ->
  kelly_criterion win_rate avg_win avg_loss L fraction
  = Ok (max 0
          (min ((win_rate - (1 - win_rate) / abs (avg_win / avg_loss))
                * fraction) L)).
Proof.
  intros H0 H1 Hw Hl. unfold kelly_criterion.
  assert (E1 : ltb win_rate 0 = false) by (apply ltb_false; lra).
  assert (E2 : ltb 1 win_rate = false) by (apply ltb_false; lra).
  assert (E3 : leb 0 avg_loss = false) by (apply leb_false; lra).
  assert (E4 : leb avg_win 0 = false) by (apply leb_false; lra).
  assert (E5 : eqb win_rate 0 = false) by (apply eqb_false; intro; lra).
  assert (E6 : eqb win_rate 1 = false) by (apply eqb_false; intro; lra).
  rewrite E1, E2, E3, E4, E5, E6. cbn [orb].
  rewrite KellyFacts.div_ok by (intro; lra). cbn [bind].
  destruct (win_loss_ratio avg_win avg_loss Hw Hl) as [_ Hp].
  rewrite KellyFacts.div_ok by (intro; lra). reflexivity.
Qed.

Lemma kelly_in_range (win_rate avg_win avg_loss L fraction : Q) :
  0 <= L ->
  exists k,
    kelly_criterion win_rate avg_win avg_loss L fraction = Ok k /\
    0 <= k /\ k <= L.
Proof.
  intro HL. unfold kelly_criterion.
  destruct (ltb win_rate 0 || ltb 1 win_rate);
    [exists 0; repeat split; lra|].
  destruct (leb 0 avg_loss || leb avg_win 0) eqn:G;
    [exists 0; repeat split; lra|].
  destruct (eqb win_rate 0); [exists 0; repeat split; lra|].
  apply orb_false_elim in G. destruct G as [G1 G2].
  apply leb_false in G1. apply leb_false in G2.
  destruct (eqb win_rate 1).
  - cbn [bind]. eexists. split; [reflexivity|].
    split; [apply clamp_lower | apply clamp_upper; exact HL].
  - rewrite KellyFacts.div_ok by (intro; lra). cbn [bind].
    destruct (win_loss_ratio avg_win avg_loss G2 G1) as [_ Hp].
    rewrite KellyFacts.div_ok by (intro; lra). cbn [bind].
    eexists. split; [reflexivity|].
    split; [apply clamp_lower | apply clamp_upper; exact HL].
Qed.

(** Whatever the statistics, [kelly_criterion] does not raise, and with a
    non-negative [max_leverage] its result lies in [0, max_leverage]. *)
Theorem kelly_criterion_bounded (win_rate avg_win avg_loss L fraction : Q) :
  0 <= L ->
  exists k,
    kelly_criterion win_rate avg_win avg_loss L fraction = Ok k /\
    0 <= k /\ k <= L.
Proof.
  exact (kelly_in_range win_rate avg_win avg_loss L fraction).
Qed.

Lemma kelly_criterion_bounded_witness :
  0 <= 3 # 10 /\
  exists k,
    kelly_criterion (- (1)) 0 5 (3 # 10) (- (2)) = Ok k /\
    0 <= k /\ k <= 3 # 10.
Proof.
  assert (H : 0 <= 3 # 10) by (unfold Qle; simpl; lia).
  split; [exact H|].
  exact (kelly_criterion_bounded (- (1)) 0 5 (3 # 10) (- (2)) H).
Defined.

(** The result is never negative, whatever [max_leverage] is. *)
Lemma kelly_criterion_nonneg (win_rate avg_win avg_loss L fraction : Q) :
  exists k,
    kelly_criterion win_rate avg_win avg_loss L fraction = Ok k /\ 0 <= k.
Proof.
  unfold kelly_criterion.
  destruct (ltb win_rate 0 || ltb 1 win_rate); [exists 0; split; [reflexivity | lra]|].
  destruct (leb 0 avg_loss || leb avg_win 0) eqn:G; [exists 0; split; [reflexivity | lra]|].
  destruct (eqb win_rate 0); [exists 0; split; [reflexivity | lra]|].
  apply orb_false_elim in G. destruct G as [G1 G2].
  apply leb_false in G1. apply leb_false in G2.
  destruct (eqb win_rate 1).
  - cbn [bind]. eexists. split; [reflexivity | apply clamp_lower].
  - rewrite KellyFacts.div_ok by (intro; lra). cbn [bind].
    destruct (win_loss_ratio avg_win avg_loss G2 G1) as [_ Hp].
    rewrite KellyFacts.div_ok by (intro; lra). cbn [bind].
    eexists. split; [reflexivity | apply clamp_lower].
Qed.

Lemma kelly_criterion_at_one (win_rate avg_win avg_loss L fraction : Q) :
  win_rate == 1 -> 0 < avg_win -> avg_loss < 0 ->
  kelly_criterion win_rate avg_win avg_loss L fraction
  = Ok (max 0 (min (L * fraction) L)).
Proof.
  intros H1 Hw Hl. unfold kelly_criterion.
  assert (E1 : ltb win_rate 0 = false) by (apply ltb_false; lra).
  assert (E2 : ltb 1 win_rate = false) by (apply ltb_false; lra).
  assert (E3 : leb 0 avg_loss = false) by (apply leb_false; lra).
  assert (E4 : leb avg_win 0 = false) by (apply leb_false; lra).
  assert (E5 : eqb win_rate 0 = false) by (apply eqb_false; intro; lra).
  assert (E6 : eqb win_rate 1 = true) by (apply eqb_true; exact H1).
  rewrite E1, E2, E3, E4, E5, E6. reflexivity.
Qed.

(** The Kelly value of the formula has the sign of the expected return of a
    trade, [win_rate * avg_win + (1 - win_rate) * avg_loss]. *)
Lemma raw_kelly_sign (win_rate avg_win avg_loss : Q) :
  0 < avg_win -> avg_loss < 0 ->
  (0 < win_rate - (1 - win_rate) / abs (avg_win / avg_loss) <->
   0 < win_rate * avg_win + (1 - win_rate) * avg_loss).
Proof.
  intros Hw Hl.
  destruct (win_loss_ratio avg_win avg_loss Hw Hl) as [ER _].
  assert (E : win_rate - (1 - win_rate) / abs (avg_win / avg_loss)
              == (win_rate * avg_win + (1 - win_rate) * avg_loss) / avg_win).
  { rewrite ER. field. split; intro; lra. }
  rewrite E. set (e := win_rate * avg_win + (1 - win_rate) * avg_loss).
  split; intro H.
  - assert (E2 : e == e / avg_win * avg_win) by (field; intro; lra).
    rewrite E2. apply Qmult_lt_0_compat; assumption.
  - apply Qlt_shift_div_l; [exact Hw|]. lra.
Qed.

(** With a positive fraction and a positive cap, [kelly_criterion] returns a
    positive size exactly when the statistics show a positive expected
    return per trade; otherwise it returns 0 (and the strategies fall back
    to fixed sizing). *)
Theorem kelly_positive_iff_edge (win_rate avg_win avg_loss L fraction : Q) :
  0 <= win_rate -> win_rate <= 1 -> 0 < avg_win -> avg_loss < 0 ->
  0 < L -> 0 < fraction ->
  exists k,
    kelly_criterion win_rate avg_win avg_loss L fraction = Ok k /\
    (0 < k <-> 0 < win_rate * avg_win + (1 - win_rate) * avg_loss).
Proof.
  intros H0 H1 Hw Hl HL Hf.
  destruct (Qeq_dec win_rate 0) as [Ez | Ez];
    [|destruct (Qeq_dec win_rate 1) as [Eo | Eo]].
  - exists 0. split.
    + apply KellyFacts.no_edge_zero. tauto.
    + assert (E : win_rate * avg_win + (1 - win_rate) * avg_loss == avg_loss)
        by (rewrite Ez; ring).
      rewrite E. split; intro; lra.
  - eexists. split; [apply kelly_criterion_at_one; assumption|].
    assert (E : win_rate * avg_win + (1 - win_rate) * avg_loss == avg_win)
      by (rewrite Eo; ring).
    rewrite E, clamp_pos. split; [intros _; exact Hw|]. intros _.
    split; [apply Qmult_lt_0_compat; assumption | exact HL].
  - eexists. split.
    + apply kelly_criterion_interior; try assumption.
      * apply Qle_lteq in H0. destruct H0 as [H0 | H0]; [exact H0|].
        exfalso. apply Ez. symmetry. exact H0.
      * apply Qle_lteq in H1. destruct H1 as [H1 | H1]; [exact H1|].
        exfalso. apply Eo. exact H1.
    + rewrite clamp_pos, <- (raw_kelly_sign win_rate avg_win avg_loss Hw Hl).
      set (raw := win_rate - (1 - win_rate) / abs (avg_win / avg_loss)).
      split.
      * intros [Hp _].
        destruct (Qlt_le_dec 0 raw) as [Hr | Hr]; [exact Hr|].
        exfalso.
        assert (Hn : raw * fraction <= 0 * fraction)
          by (apply Qmult_le_compat_r; lra).
        lra.
      * intro Hr. split; [apply Qmult_lt_0_compat; assumption | exact HL].
Qed.

Lemma kelly_positive_iff_edge_witness :
  0 <= 4 # 10 /\ 4 # 10 <= 1 /\ 0 < 2 # 100 /\ - (2 # 100) < 0 /\
  0 < 1 /\ 0 < 1 # 4 /\
  exists k,
    kelly_criterion (4 # 10) (2 # 100) (- (2 # 100)) 1 (1 # 4) = Ok k /\
    (0 < k <->
     0 < (4 # 10) * (2 # 100) + (1 - (4 # 10)) * - (2 # 100)).
Proof.
  assert (H1 : 0 <= 4 # 10) by (unfold Qle; simpl; lia).
  assert (H2 : 4 # 10 <= 1) by (unfold Qle; simpl; lia).
  assert (H3 : 0 < 2 # 100) by (unfold Qlt; simpl; lia).
  assert (H4 : - (2 # 100) < 0) by (unfold Qlt; simpl; lia).
  assert (H5 : 0 < 1) by (unfold Qlt; simpl; lia).
  assert (H6 : 0 < 1 # 4) by (unfold Qlt; simpl; lia).
  repeat (split; [assumption|]).
  exact (kelly_positive_iff_edge (4 # 10) (2 # 100) (- (2 # 100)) 1 (1 # 4)
           H1 H2 H3 H4 H5 H6).
Defined.

(** Below a win rate of 1 and with a non-negative fraction, a higher win
    rate never gives a smaller size.  (The win rate 1 is left out: there the
    function scales [max_leverage] instead of the Kelly value, which can
    give less than a win rate just under 1 when [max_leverage < 1].) *)
Theorem kelly_monotone_in_win_rate
    (w1 w2 avg_win avg_loss L fraction : Q) :
  0 <= w1 -> w1 <= w2 -> w2 < 1 -> 0 < avg_win -> avg_loss < 0 ->
  0 <= fraction ->
  exists k1 k2,
    kelly_criterion w1 avg_win avg_loss L fraction = Ok k1 /\
    kelly_criterion w2 avg_win avg_loss L fraction = Ok k2 /\
    k1 <= k2.
Proof.
  intros H0 H12 H2 Hw Hl Hf.
  destruct (Qeq_dec w1 0) as [Ez | Ez].
  - destruct (kelly_criterion_nonneg w2 avg_win avg_loss L fraction)
      as [k2 [E2 Hk2]].
    exists 0, k2. split; [|split; [exact E2 | exact Hk2]].
    apply KellyFacts.no_edge_zero. tauto.
  - assert (Hp1 : 0 < w1).
    { apply Qle_lteq in H0. destruct H0 as [H0 | H0]; [exact H0|].
      exfalso. apply Ez. symmetry. exact H0. }
    do 2 eexists.
    split; [apply kelly_criterion_interior; try assumption; lra|].
    split; [apply kelly_criterion_interior; try assumption; lra|].
    apply clamp_mono. apply Qmult_le_compat_r; [|exact Hf].
    destruct (win_loss_ratio avg_win avg_loss Hw Hl) as [_ Hp].
    set (R := abs (avg_win / avg_loss)) in *.
    assert (Hq : (1 - w2) / R <= (1 - w1) / R).
    { unfold Qdiv. apply Qmult_le_compat_r; [lra|].
      apply Qlt_le_weak. apply Qinv_lt_0_compat. exact Hp. }
    lra.
Qed.

Lemma kelly_monotone_in_win_rate_witness :
  0 <= 5 # 10 /\ 5 # 10 <= 7 # 10 /\ 7 # 10 < 1 /\ 0 < 2 # 100 /\
  - (1 # 100) < 0 /\ 0 <= 1 # 4 /\
  exists k1 k2,
    kelly_criterion (5 # 10) (2 # 100) (- (1 # 100)) 1 (1 # 4) = Ok k1 /\
    kelly_criterion (7 # 10) (2 # 100) (- (1 # 100)) 1 (1 # 4) = Ok k2 /\
    k1 <= k2.
Proof.
  assert (H1 : 0 <= 5 # 10) by (unfold Qle; simpl; lia).
  assert (H2 : 5 # 10 <= 7 # 10) by (unfold Qle; simpl; lia).
  assert (H3 : 7 # 10 < 1) by (unfold Qlt; simpl; lia).
  assert (H4 : 0 < 2 # 100) by (unfold Qlt; simpl; lia).
  assert (H5 : - (1 # 100) < 0) by (unfold Qlt; simpl; lia).
  assert (H6 : 0 <= 1 # 4) by (unfold Qle; simpl; lia).
  repeat (split; [assumption|]).
  exact (kelly_monotone_in_win_rate (5 # 10) (7 # 10) (2 # 100) (- (1 # 100))
           1 (1 # 4) H1 H2 H3 H4 H5 H6).
Defined.

End KellyEdge.

(* ------------------------------------------------------------------------- *)
(** ** What the strategies place, and when *)
(* ------------------------------------------------------------------------- *)

Module ConductFacts.
Import Py PyFacts Bt Lifecycle Pending Conduct LifecycleFacts.

Lemma nothing_fits (a : Account) : one_fitting a [].
Proof. exists None. split; [reflexivity|]. intros h H. discriminate H. Qed.

Lemma buy_fits (a : Account) (size : Q) (o : option Handle)
    (evs : list event) :
  flat a = true -> buy size = (o, evs) ->
  submitted evs = opt_list o /\ forall h, o = Some h -> fits a h.
Proof.
  intros Hf H. split; [exact (place_submitted _ _ _ _ H)|].
  unfold buy, place in H. destruct (eqb size 0) eqn:Ez;
    injection H as <- <-; intros h Hh; [discriminate Hh|].
  injection Hh as <-. unfold fits. cbn [h_side h_size].
  split; [exact Hf|]. apply HistoryFacts.abs_pos. apply eqb_false. exact Ez.
Qed.

Lemma sell_fits (a : Account) (o : option Handle) (evs : list event) :
  flat a = false -> sell (position a) = (o, evs) ->
  submitted evs = opt_list o /\ forall h, o = Some h -> fits a h.
Proof.
  intros Hf H. split; [exact (place_submitted _ _ _ _ H)|].
  unfold sell, place in H. destruct (eqb (position a) 0);
    injection H as <- <-; intros h Hh; [discriminate Hh|].
  injection Hh as <-. unfold fits. cbn [h_side h_size].
  split; [exact Hf | reflexivity].
Qed.

Lemma rsi_next_fits (p : RSI_Strat.Params) (a : Account) (b : RSI_Strat.Bar)
    (self self' : RSI_Strat.State) (evs : list event) :
  RSI_Strat.next p a b self = Ok (self', evs) -> one_fitting a evs.
Proof.
  intro H. unfold RSI_Strat.next in H.
  destruct (RSI_Strat.order self);
    [injection H as <- <-; apply nothing_fits|].
  destruct (flat a) eqn:Ef.
  - destruct (ltb _ _); [|injection H as <- <-; apply nothing_fits].
    destruct (RSI_Strat.calculate_position_size p a b self)
      as [[size logs]|e] eqn:Es; cbn [bind] in H; [|discriminate H].
    destruct (buy size) as [o es] eqn:Eb. injection H as <- <-.
    destruct (buy_fits a size o es Ef Eb) as [E1 E2].
    exists o. split; [|exact E2].
    rewrite !submitted_app, submitted_log_if, (rsi_size_logs _ _ _ _ _ _ Es).
    rewrite app_nil_r. exact E1.
  - destruct (ltb _ _); [|injection H as <- <-; apply nothing_fits].
    destruct (sell (position a)) as [o es] eqn:Eb. injection H as <- <-.
    destruct (sell_fits a o es Ef Eb) as [E1 E2].
    exists o. split; [|exact E2].
    rewrite submitted_app, submitted_log_if, app_nil_r. exact E1.
Qed.

Lemma bol_next_fits (p : Bol_Strat.Params) (a : Account) (b : Bol_Strat.Bar)
    (self self' : Bol_Strat.State) (evs : list event) :
  Bol_Strat.next p a b self = Ok (self', evs) -> one_fitting a evs.
Proof.
  intro H. unfold Bol_Strat.next in H.
  destruct (Bol_Strat.order self);
    [injection H as <- <-; apply nothing_fits|].
  destruct (flat a) eqn:Ef.
  - destruct (ltb _ _); [|injection H as <- <-; apply nothing_fits].
    destruct (Bol_Strat.calculate_position_size p a b self)
      as [[size logs]|e] eqn:Es; cbn [bind] in H; [|discriminate H].
    destruct (buy size) as [o es] eqn:Eb. injection H as <- <-.
    destruct (buy_fits a size o es Ef Eb) as [E1 E2].
    exists o. split; [|exact E2].
    rewrite !submitted_app, submitted_log_if, (bol_size_logs _ _ _ _ _ _ Es).
    rewrite app_nil_r. exact E1.
  - destruct (Bol_Strat.exit_check p b self) as [should_exit reason].
    destruct should_exit; [|injection H as <- <-; apply nothing_fits].
    destruct (sell (position a)) as [o es] eqn:Eb. injection H as <- <-.
    destruct (sell_fits a o es Ef Eb) as [E1 E2].
    exists o. split; [|exact E2].
    rewrite submitted_app, submitted_log_if, app_nil_r. exact E1.
Qed.

Lemma rand_next_fits (R : PyRandom.Generator) (p : Rand_Strat.Params)
    (a : Account) (b : Rand_Strat.Bar) (self self' : Rand_Strat.State)
    (g g' : PyRandom.gen R) (evs : list event) :
  Rand_Strat.next R p a b self g = Ok (self', g', evs) -> one_fitting a evs.
Proof.
  intro H. unfold Rand_Strat.next in H.
  destruct (Rand_Strat.order self);
    [injection H as <- <- <-; apply nothing_fits|].
  destruct (PyRandom.random R g) as [u g1].
  destruct (negb (ltb u _)); [injection H as <- <- <-; apply nothing_fits|].
  destruct (flat a) eqn:Ef.
  - destruct (div _ _) as [size|e]; cbn [bind] in H; [|discriminate H].
    destruct (buy size) as [o es] eqn:Eb. injection H as <- <- <-.
    destruct (buy_fits a size o es Ef Eb) as [E1 E2].
    exists o. split; [|exact E2].
    rewrite submitted_app, submitted_log_if, app_nil_r. exact E1.
  - cbn [negb] in H.
    destruct (_ <=? _)%Z; [|injection H as <- <- <-; apply nothing_fits].
    destruct (sell (position a)) as [o es] eqn:Eb. injection H as <- <- <-.
    destruct (sell_fits a o es Ef Eb) as [E1 E2].
    exists o. split; [|exact E2].
    rewrite submitted_app, submitted_log_if, app_nil_r. exact E1.
Qed.

Lemma one_fitting_forall (a : Account) (evs : list event) :
  one_fitting a evs ->
  (length (submitted evs) <= 1)%nat /\ Forall (fits a) (submitted evs).
Proof.
  intros [o [E H]]. rewrite E. destruct o as [h|]; cbn [opt_list length].
  - split; [lia|]. constructor; [apply H; reflexivity | constructor].
  - split; [lia | constructor].
Qed.

(** On one bar each of the three strategies submits at most one order.  A
    buy is only placed from a flat account and has a positive size; a sell
    is only placed from a non-zero position and is for the whole of it: no
    adding to a position, no partial exit, no order to open a short. *)
Theorem orders_fit_position
    (pr : RSI_Strat.Params) (pb : Bol_Strat.Params)
    (R : PyRandom.Generator) (pd : Rand_Strat.Params) (a : Account) :
  (forall b self self' evs,
     RSI_Strat.next pr a b self = Ok (self', evs) ->
     (length (submitted evs) <= 1)%nat /\ Forall (fits a) (submitted evs)) /\
  (forall b self self' evs,
     Bol_Strat.next pb a b self = Ok (self', evs) ->
     (length (submitted evs) <= 1)%nat /\ Forall (fits a) (submitted evs)) /\
  (forall b self g self' g' evs,
     Rand_Strat.next R pd a b self g = Ok (self', g', evs) ->
     (length (submitted evs) <= 1)%nat /\ Forall (fits a) (submitted evs)).
Proof.
  split; [|split].
  - intros b self self' evs H. apply one_fitting_forall.
    exact (rsi_next_fits pr a b self self' evs H).
  - intros b self self' evs H. apply one_fitting_forall.
    exact (bol_next_fits pb a b self self' evs H).
  - intros b self g self' g' evs H. apply one_fitting_forall.
    exact (rand_next_fits R pd a b self self' g g' evs H).
Qed.

Lemma orders_fit_position_witness :
  exists self' evs,
    RSI_Strat.next RSI_Strat.default_params Cases.flat_1000 Scenario.oversold
      RSI_Strat.init = Ok (self', evs) /\
    length (submitted evs) = 1%nat /\
    Forall (fits Cases.flat_1000) (submitted evs).
Proof.
  do 2 eexists. split; [vm_compute; reflexivity|]. split; [reflexivity|].
  refine (proj2 (proj1 (orders_fit_position RSI_Strat.default_params
                          Bol_Strat.default_params TwoRuns.replay
                          Rand_Strat.default_params Cases.flat_1000)
                   Scenario.oversold RSI_Strat.init _ _ _)).
  vm_compute. reflexivity.
Defined.

Lemma rsi_places_fitting (p : RSI_Strat.Params) : places_fitting (RSI p).
Proof.
  intros a b s s' evs H. cbn [RSI on_bar] in H.
  exact (proj2 (one_fitting_forall a evs (rsi_next_fits p a b s s' evs H))).
Qed.

Lemma bol_places_fitting (p : Bol_Strat.Params) : places_fitting (Bol p).
Proof.
  intros a b s s' evs H. cbn [Bol on_bar] in H.
  exact (proj2 (one_fitting_forall a evs (bol_next_fits p a b s s' evs H))).
Qed.

Lemma rand_places_fitting (R : PyRandom.Generator) (p : Rand_Strat.Params) :
  places_fitting (Rand R p).
Proof.
  intros a b [s g] [s' g'] evs H. cbn [Rand on_bar fst snd] in H.
  destruct (Rand_Strat.next R p a b s g) as [[[s1 g1] e1]|e] eqn:En;
    cbn [bind] in H; [|discriminate H].
  injection H as <- <- <-.
  exact (proj2 (one_fitting_forall a e1
                  (rand_next_fits R p a b s s1 g g1 e1 En))).
Qed.

Section LongOnly.
Variable E : Strategy.
Hypothesis law : Lawful E.
Hypothesis fit : places_fitting E.

Lemma step_long_only (i : Input E) (w w' : World E) :
  long_only w -> step E i w = Some w' -> long_only w'.
Proof.
  intros [Hs [Hp Hb]] H.
  assert (Hs' : in_step w') by exact (step_in_step E law i w w' Hs H).
  split; [exact Hs'|]. clear Hs'.
  destruct i as [cash value b|n st price comm|t]; cbn [step] in H.
  - set (a := {| get_cash := cash; getvalue := value; position := pos w |}) in H.
    destruct (on_bar E a b (eng w)) as [[e evs]|x] eqn:Eb; [|discriminate H].
    injection H as <-. cbn [pos book]. split; [exact Hp|].
    intros h Hin. apply in_app_or in Hin. destruct Hin as [Hin | Hin].
    + exact (Hb h Hin).
    + assert (Hf := fit a b (eng w) e evs Eb).
      rewrite Forall_forall in Hf. specialize (Hf h Hin).
      unfold fits, flat in Hf. subst a. cbn [position] in Hf.
      destruct (h_side h); destruct Hf as [Hf1 Hf2].
      * apply eqb_true in Hf1. split; assumption.
      * apply eqb_false in Hf1. rewrite Hf2. unfold abs.
        split; [apply Qabs_pos; exact Hp|].
        apply Qle_lteq in Hp. destruct Hp as [Hp | Hp]; [exact Hp|].
        exfalso. apply Hf1. symmetry. exact Hp.
  - destruct (nth_error (book w) n) as [h|] eqn:En; [|discriminate H].
    assert (Hh := Hb h (nth_error_In _ _ En)).
    assert (Hr : remove_nth n (book w) = []).
    { unfold in_step in Hs. rewrite Hs in *.
      destruct (pending E (eng w)); cbn [opt_list] in *;
        [|destruct n; discriminate En].
      destruct n as [|n]; [reflexivity | destruct n; discriminate En]. }
    destruct st; injection H as <-; cbn [pos book];
      try (split; [exact Hp | exact Hb]);
      try (rewrite Hr; split; [exact Hp | intros h1 []]).
    rewrite Hr. split; [|intros h1 []].
    unfold fill. destruct (h_side h); destruct Hh as [H1 H2]; lra.
  - injection H as <-. cbn [pos book]. split; [exact Hp | exact Hb].
Qed.

Lemma run_long_only (inputs : list (Input E)) (w w' : World E) :
  long_only w -> run E inputs w = Some w' -> long_only w'.
Proof.
  revert w. induction inputs as [|i inputs IH]; intros w Hw H; cbn [run] in H.
  - injection H as <-. exact Hw.
  - destruct (step E i w) as [w1|] eqn:Es; [|discriminate H].
    exact (IH w1 (step_long_only i w w1 Hw Es) H).
Qed.

(** From a new strategy the position is never short, an open sell order is
    always for the whole position, and its completion leaves the position
    at zero. *)
Lemma reachable_long_only (e : St E) (w : World E) :
  pending E e = None -> reachable E e w ->
  0 <= pos w /\
  (forall h, In h (book w) -> h_side h = Sell -> h_size h == pos w) /\
  (forall n h price comm w',
     nth_error (book w) n = Some h -> h_side h = Sell ->
     step E (OnOrder n Completed price comm) w = Some w' -> pos w' == 0).
Proof.
  intros He [inputs H].
  assert (H0 : long_only (start E e)).
  { unfold long_only, in_step, start. cbn [book eng pos]. rewrite He.
    split; [reflexivity|]. split; [lra|]. intros h []. }
  destruct (run_long_only inputs _ w H0 H) as [Hs [Hp Hb]].
  split; [exact Hp|]. split.
  - intros h Hin Hside. specialize (Hb h Hin). rewrite Hside in Hb.
    exact (proj1 Hb).
  - intros n h price comm w' En Hside Hstep. cbn [step] in Hstep.
    rewrite En in Hstep. injection Hstep as <-. cbn [pos].
    specialize (Hb h (nth_error_In _ _ En)). rewrite Hside in Hb.
    unfold fill. rewrite Hside. destruct Hb as [H1 H2]. lra.
Qed.

End LongOnly.

(** The three strategies are long-only.  In every run from a new strategy
    the position held by the broker is never negative; an open sell order is
    for exactly the position held; and when a sell order completes the
    position is zero. *)
Theorem never_short
    (pr : RSI_Strat.Params) (pb : Bol_Strat.Params)
    (R : PyRandom.Generator) (pd : Rand_Strat.Params) :
  let good := fun (E : Strategy) (w : World E) =>
    0 <= pos w /\
    (forall h, In h (book w) -> h_side h = Sell -> h_size h == pos w) /\
    (forall n h price comm w',
       nth_error (book w) n = Some h -> h_side h = Sell ->
       step E (OnOrder n Completed price comm) w = Some w' -> pos w' == 0) in
  (forall w, reachable (RSI pr) RSI_Strat.init w -> good (RSI pr) w) /\
  (forall w, reachable (Bol pb) Bol_Strat.init w -> good (Bol pb) w) /\
  (forall g w,
     reachable (Rand R pd) (Rand_Strat.init R pd g) w -> good (Rand R pd) w).
Proof.
  cbv zeta. split; [|split].
  - intros w H.
    exact (reachable_long_only (RSI pr) (rsi_lawful pr)
             (rsi_places_fitting pr) RSI_Strat.init w eq_refl H).
  - intros w H.
    exact (reachable_long_only (Bol pb) (bol_lawful pb)
             (bol_places_fitting pb) Bol_Strat.init w eq_refl H).
  - intros g w H.
    exact (reachable_long_only (Rand R pd) (rand_lawful R pd)
             (rand_places_fitting R pd) (Rand_Strat.init R pd g) w
             eq_refl H).
Qed.

Lemma never_short_witness :
  exists w,
    run Scenario.rsi_default Scenario.round_trip
      (start Scenario.rsi_default RSI_Strat.init) = Some w /\
    0 <= pos w.
Proof.
  eexists. split; [vm_compute; reflexivity|].
  refine (proj1 (proj1 (never_short RSI_Strat.default_params
                          Bol_Strat.default_params TwoRuns.replay
                          Rand_Strat.default_params) _ _)).
  exists Scenario.round_trip. vm_compute. reflexivity.
Defined.

Lemma rsi_next_keeps (p : RSI_Strat.Params) (a : Account) (b : RSI_Strat.Bar)
    (self self' : RSI_Strat.State) (evs : list event) :
  RSI_Strat.order self = None ->
  RSI_Strat.next p a b self = Ok (self', evs) ->
  RSI_Strat.set_order None self' = self.
Proof.
  intros Hn H. unfold RSI_Strat.next in H. rewrite Hn in H.
  assert (Hself : forall x,
            RSI_Strat.set_order None (RSI_Strat.set_order x self) = self).
  { intro x. destruct self. cbn in Hn. subst. reflexivity. }
  assert (Hself0 : RSI_Strat.set_order None self = self).
  { destruct self. cbn in Hn. subst. reflexivity. }
  destruct (flat a).
  - destruct (ltb _ _); [|injection H as <- <-; exact Hself0].
    destruct (RSI_Strat.calculate_position_size p a b self)
      as [[size logs]|e]; cbn [bind] in H; [|discriminate H].
    destruct (buy size) as [o es]. injection H as <- <-. apply Hself.
  - destruct (ltb _ _); [|injection H as <- <-; exact Hself0].
    destruct (sell (position a)) as [o es]. injection H as <- <-. apply Hself.
Qed.

Lemma bol_next_keeps (p : Bol_Strat.Params) (a : Account) (b : Bol_Strat.Bar)
    (self self' : Bol_Strat.State) (evs : list event) :
  Bol_Strat.order self = None ->
  Bol_Strat.next p a b self = Ok (self', evs) ->
  Bol_Strat.set_order None self' = self.
Proof.
  intros Hn H. unfold Bol_Strat.next in H. rewrite Hn in H.
  assert (Hself : forall x,
            Bol_Strat.set_order None (Bol_Strat.set_order x self) = self).
  { intro x. destruct self. cbn in Hn. subst. reflexivity. }
  assert (Hself0 : Bol_Strat.set_order None self = self).
  { destruct self. cbn in Hn. subst. reflexivity. }
  destruct (flat a).
  - destruct (ltb _ _); [|injection H as <- <-; exact Hself0].
    destruct (Bol_Strat.calculate_position_size p a b self)
      as [[size logs]|e]; cbn [bind] in H; [|discriminate H].
    destruct (buy size) as [o es]. injection H as <- <-. apply Hself.
  - destruct (Bol_Strat.exit_check p b self) as [should_exit reason].
    destruct should_exit; [|injection H as <- <-; exact Hself0].
    destruct (sell (position a)) as [o es]. injection H as <- <-. apply Hself.
Qed.

(** For [RSI_Strat] and [Bol_Strat], a Canceled, Margin or Rejected
    notification puts the object back exactly as it was before the bar that
    placed the order, so a bar with the same readings places the same order
    again. *)
Theorem failed_order_retriggers
    (pr : RSI_Strat.Params) (pb : Bol_Strat.Params) (a : Account) (o : Order) :
  failed (status o) = true ->
  (forall b self self' evs,
     RSI_Strat.order self = None ->
     RSI_Strat.next pr a b self = Ok (self', evs) ->
     fst (RSI_Strat.notify_order pr o self') = self /\
     RSI_Strat.next pr a b (fst (RSI_Strat.notify_order pr o self'))
     = Ok (self', evs)) /\
  (forall b self self' evs,
     Bol_Strat.order self = None ->
     Bol_Strat.next pb a b self = Ok (self', evs) ->
     fst (Bol_Strat.notify_order pb o self') = self /\
     Bol_Strat.next pb a b (fst (Bol_Strat.notify_order pb o self'))
     = Ok (self', evs)).
Proof.
  intro Hf. split.
  - intros b self self' evs Hn H.
    assert (E : fst (RSI_Strat.notify_order pr o self') = self).
    { unfold RSI_Strat.notify_order.
      destruct (status o); try discriminate Hf;
        exact (rsi_next_keeps pr a b self self' evs Hn H). }
    rewrite E. split; [reflexivity | exact H].
  - intros b self self' evs Hn H.
    assert (E : fst (Bol_Strat.notify_order pb o self') = self).
    { unfold Bol_Strat.notify_order.
      destruct (status o); try discriminate Hf;
        exact (bol_next_keeps pb a b self self' evs Hn H). }
    rewrite E. split; [reflexivity | exact H].
Qed.

Lemma failed_order_retriggers_witness :
  failed (status Scenario.rejected_buy) = true /\
  exists self' evs,
    RSI_Strat.next RSI_Strat.default_params Cases.flat_1000 Scenario.oversold
      RSI_Strat.init = Ok (self', evs) /\
    RSI_Strat.order self' <> None /\
    RSI_Strat.next RSI_Strat.default_params Cases.flat_1000 Scenario.oversold
      (fst (RSI_Strat.notify_order RSI_Strat.default_params
              Scenario.rejected_buy self'))
    = Ok (self', evs).
Proof.
  assert (Hf : failed (status Scenario.rejected_buy) = true) by reflexivity.
  split; [exact Hf|].
  do 2 eexists. split; [vm_compute; reflexivity|].
  split; [discriminate|].
  refine (proj2 (proj1 (failed_order_retriggers RSI_Strat.default_params
                          Bol_Strat.default_params Cases.flat_1000
                          Scenario.rejected_buy Hf)
                   Scenario.oversold RSI_Strat.init _ _ eq_refl _)).
  vm_compute. reflexivity.
Defined.

(** [Rand_Strat] keeps a position for its minimum holding period.  In
    position with no order pending and the counter at [c], bars that bring
    the counter to less than [hold_bars] submit nothing, whatever is drawn:
    the position and the book are unchanged and the counter has advanced by
    one per bar. *)
Theorem rand_minimum_hold
    (R : PyRandom.Generator) (p : Rand_Strat.Params)
    (inputs : list (Input (Rand R p))) (w : World (Rand R p)) :
  Rand_Strat.order (fst (eng w)) = None ->
  book w = [] ->
  ~ pos w == 0 ->
  forallb is_bar inputs = true ->
  (Rand_Strat.bar_count_in_position (fst (eng w))
   + Z.of_nat (length inputs) < Rand_Strat.hold_bars p)%Z ->
  exists w',
    run (Rand R p) inputs w = Some w' /\
    book w' = [] /\
    pos w' = pos w /\
    Rand_Strat.order (fst (eng w')) = None /\
    Rand_Strat.bar_count_in_position (fst (eng w'))
    = (Rand_Strat.bar_count_in_position (fst (eng w))
       + Z.of_nat (length inputs))%Z.
Proof.
  revert w. induction inputs as [|i inputs IH]; intros w Ho Hb Hp Hi Hc.
  - exists w. cbn [run length Z.of_nat]. repeat split; try assumption. lia.
  - cbn [forallb] in Hi. apply andb_prop in Hi. destruct Hi as [Hi1 Hi2].
    destruct i as [cash value b|n st price comm|t]; try discriminate Hi1.
    cbn [length] in Hc. rewrite Nat2Z.inj_succ in Hc.
    destruct w as [[self g] q bk]. cbn [eng pos book fst] in *. subst bk.
    cbn [run step Rand on_bar fst snd eng pos book].
    unfold Rand_Strat.next. rewrite Ho. unfold flat. cbn [position].
    apply eqb_false in Hp. rewrite Hp. cbn [negb].
    destruct (PyRandom.random R g) as [u g1].
    set (self1 := Rand_Strat.set_bar_count _ self).
    assert (Hh : (Rand_Strat.hold_bars p
                  <=? Rand_Strat.bar_count_in_position self1)%Z = false).
    { apply Z.leb_gt. subst self1. cbn [Rand_Strat.set_bar_count
        Rand_Strat.bar_count_in_position]. lia. }
    assert (E : (if negb (ltb u (Rand_Strat.trade_probability p))
                 then Ok (self1, g1, @nil event)
                 else
                   if (Rand_Strat.hold_bars p
                       <=? Rand_Strat.bar_count_in_position self1)%Z
                   then
                     let '(o, evs) := sell q in
                     Ok (Rand_Strat.set_order o self1, g1,
                         evs ++ log_if (Rand_Strat.printlog p)
                                  RANDOM_SELL_SIGNAL)
                   else Ok (self1, g1, []))
                = Ok (self1, g1, [])).
    { rewrite Hh. destruct (negb _); reflexivity. }
    rewrite E. cbn [bind app submitted].
    destruct (IH (Build_World (Rand R p) (self1, g1) q [])) as [w' Hw'].
    + exact Ho.
    + reflexivity.
    + cbn [pos]. apply eqb_false. exact Hp.
    + exact Hi2.
    + cbn [eng fst]. subst self1.
      cbn [Rand_Strat.set_bar_count Rand_Strat.bar_count_in_position]. lia.
    + exists w'. cbn [eng pos book fst] in Hw'.
      destruct Hw' as [E1 [E2 [E3 [E4 E5]]]].
      repeat split; try assumption.
      rewrite E5. subst self1.
      cbn [Rand_Strat.set_bar_count Rand_Strat.bar_count_in_position length].
      lia.
Qed.

Lemma rand_minimum_hold_witness :
  exists w',
    run Cases.rand_eager Cases.nine_bars Cases.just_bought = Some w' /\
    book w' = [] /\
    pos w' = pos Cases.just_bought /\
    Rand_Strat.bar_count_in_position (fst (eng w')) = 9%Z.
Proof.
  destruct (rand_minimum_hold Cases.zeros Cases.eager Cases.nine_bars
              Cases.just_bought eq_refl eq_refl)
    as [w' [E1 [E2 [E3 [_ E5]]]]].
  - discriminate.
  - reflexivity.
  - reflexivity.
  - exists w'. repeat split; assumption.
Defined.

End ConductFacts.

(* ------------------------------------------------------------------------- *)
(** ** [calculate_position_size] *)
(* ------------------------------------------------------------------------- *)

Module SizingFacts.
Import Py PyFacts Bt Conduct.

Lemma filters_counted (trs : list Trade) :
  (length (filter Feed.closed_win trs)
   + length (filter Feed.closed_loss trs) <= length trs)%nat.
Proof.
  induction trs as [|tr trs IH]; [reflexivity|].
  cbn [filter]. unfold Feed.closed_win at 1, Feed.closed_loss at 1.
  destruct (isclosed tr); destruct (ltb 0 (pnlcomm tr));
    cbn [andb negb length]; lia.
Qed.

(** The two lists together never hold more entries than trades were
    notified. *)
Lemma trades_counted (trs : list Trade) :
  (length (TradeHistory.wins (Feed.sizer trs))
   + length (TradeHistory.losses (Feed.sizer trs)) <= length trs)%nat.
Proof.
  destruct (HistoryFacts.sizer_last_100 trs) as [Hw Hl]. rewrite Hw, Hl.
  unfold last_n. rewrite !length_skipn.
  unfold Feed.winning_returns, Feed.losing_returns. rewrite !length_map.
  assert (H := filters_counted trs). lia.
Qed.

Lemma rsi_after_history (p : RSI_Strat.Params) (trs : list Trade) :
  RSI_Strat.history (rsi_after p trs) = Feed.sizer trs /\
  RSI_Strat.min_trades_for_kelly (rsi_after p trs) = 20%nat.
Proof.
  split; [exact (HistoryFacts.rsi_sizer p trs)|].
  unfold rsi_after.
  assert (G : forall s, RSI_Strat.min_trades_for_kelly s = 20%nat ->
    RSI_Strat.min_trades_for_kelly
      (fold_left (fun self tr => fst (RSI_Strat.notify_trade p tr self)) trs s)
    = 20%nat).
  { induction trs as [|tr trs IH]; intros s E; cbn [fold_left]; [exact E|].
    apply IH. unfold RSI_Strat.notify_trade.
    destruct (negb (isclosed tr)); exact E. }
  apply G. reflexivity.
Qed.

Lemma bol_after_history (p : Bol_Strat.Params) (trs : list Trade) :
  Bol_Strat.history (bol_after p trs) = Feed.sizer trs /\
  Bol_Strat.min_trades_for_kelly (bol_after p trs) = 20%nat.
Proof.
  split; [exact (HistoryFacts.bol_sizer p trs)|].
  unfold bol_after.
  assert (G : forall s, Bol_Strat.min_trades_for_kelly s = 20%nat ->
    Bol_Strat.min_trades_for_kelly
      (fold_left (fun self tr => fst (Bol_Strat.notify_trade p tr self)) trs s)
    = 20%nat).
  { induction trs as [|tr trs IH]; intros s E; cbn [fold_left]; [exact E|].
    apply IH. unfold Bol_Strat.notify_trade.
    destruct (negb (isclosed tr)); exact E. }
  apply G. reflexivity.
Qed.

(** Until 20 trades were notified the size is the fixed fraction of cash,
    also when Kelly sizing is configured: the statistics are not looked
    at. *)
Theorem fixed_size_below_20_trades
    (pr : RSI_Strat.Params) (pb : Bol_Strat.Params) (a : Account)
    (br : RSI_Strat.Bar) (bb : Bol_Strat.Bar) (trs : list Trade) :
  (length trs < 20)%nat ->
  (exists logs,
     RSI_Strat.calculate_position_size pr a br (rsi_after pr trs)
     = fixed_size (get_cash a) (RSI_Strat.position_size pr)
         (RSI_Strat.close br) logs /\
     submitted logs = []) /\
  Bol_Strat.calculate_position_size pb a bb (bol_after pb trs)
  = fixed_size (get_cash a) (Bol_Strat.position_size pb)
      (Bol_Strat.close bb) [].
Proof.
  intro Hlen. assert (Hc := trades_counted trs). split.
  - destruct (rsi_after_history pr trs) as [Eh Em].
    unfold RSI_Strat.calculate_position_size. rewrite Eh, Em.
    destruct (String.eqb _ _).
    + replace (20 <=? _)%nat with false
        by (symmetry; apply Nat.leb_gt; lia).
      eexists. split; [reflexivity | apply LifecycleFacts.submitted_log_if].
    + exists []. split; reflexivity.
  - destruct (bol_after_history pb trs) as [Eh Em].
    unfold Bol_Strat.calculate_position_size. rewrite Eh, Em.
    destruct (String.eqb _ _); [|reflexivity].
    replace (20 <=? _)%nat with false
      by (symmetry; apply Nat.leb_gt; lia).
    reflexivity.
Qed.

Lemma fixed_size_below_20_trades_witness :
  (length (Cases.losing_trades 19) < 20)%nat /\
  RSI_Strat.calculate_position_size Cases.rsi_kelly Cases.flat_1000
    Scenario.oversold (rsi_after Cases.rsi_kelly (Cases.losing_trades 19))
  = Ok (1000 * (2 # 100) / 100, []) /\
  Bol_Strat.calculate_position_size Cases.bol_kelly Cases.flat_1000
    Cases.bol_bar (bol_after Cases.bol_kelly (Cases.losing_trades 19))
  = fixed_size 1000 (2 # 100) 90 [].
Proof.
  assert (H : (length (Cases.losing_trades 19) < 20)%nat)
    by (vm_compute; lia).
  split; [exact H|]. split; [reflexivity|].
  exact (proj2 (fixed_size_below_20_trades Cases.rsi_kelly Cases.bol_kelly
                  Cases.flat_1000 Scenario.oversold Cases.bol_bar
                  (Cases.losing_trades 19) H)).
Defined.

Lemma fixed_sized (cash value ps close : Q) (logs : list event) :
  submitted logs = [] -> sized cash value ps close (fixed_size cash ps close logs).
Proof.
  intro Hl. unfold sized, fixed_size, div. split; intro Hc.
  - apply eqb_true in Hc. rewrite Hc. reflexivity.
  - apply eqb_false in Hc. rewrite Hc. cbn [bind].
    exists (cash * ps / close), logs.
    split; [reflexivity|]. split; [exact Hl|]. left. reflexivity.
Qed.

Lemma kelly_sized (cash value ps close kf : Q) (l1 l2 : list event) :
  0 <= kf -> kf <= 1 -> submitted l1 = [] -> submitted l2 = [] ->
  sized cash value ps close
    (if ltb 0 kf
     then size <- div (value * kf) close ;; Ok (size, l1)
     else size <- div (cash * ps) close ;; Ok (size, l2)).
Proof.
  intros H0 H1 Hl1 Hl2. destruct (ltb 0 kf) eqn:Ek.
  - apply ltb_true in Ek. unfold sized, div. split; intro Hc.
    + apply eqb_true in Hc. rewrite Hc. reflexivity.
    + apply eqb_false in Hc. rewrite Hc. cbn [bind].
      exists (value * kf / close), l1.
      split; [reflexivity|]. split; [exact Hl1|]. right.
      exists kf. split; [exact Ek|]. split; [exact H1 | reflexivity].
  - exact (fixed_sized cash value ps close l2 Hl2).
Qed.

Lemma stats_divide (wins losses : list Q) :
  (0 < length wins + length losses)%nat ->
  exists w aw al,
    div (len wins) (inject_Z (Z.of_nat (length wins + length losses))) = Ok w /\
    match wins with
    | [] => Ok (2 # 100)
    | _ => div (sum wins) (len wins)
    end = Ok aw /\
    match losses with
    | [] => Ok (- (15 # 1000))
    | _ => div (sum losses) (len losses)
    end = Ok al.
Proof.
  intro Ht. apply Nat.ltb_lt in Ht.
  rewrite (KellyFacts.div_ok _ _ (SizerFacts.count_nonzero _ Ht)).
  destruct wins as [|x ws]; destruct losses as [|y ls];
    repeat rewrite (KellyFacts.div_ok _ _ (SizerFacts.len_cons_nonzero _ _));
    do 3 eexists; repeat split.
Qed.

Lemma sizes_sized
    (pr : RSI_Strat.Params) (pb : Bol_Strat.Params) (a : Account)
    (br : RSI_Strat.Bar) (bb : Bol_Strat.Bar)
    (sr : RSI_Strat.State) (sb : Bol_Strat.State) :
  (0 < RSI_Strat.min_trades_for_kelly sr)%nat ->
  (0 < Bol_Strat.min_trades_for_kelly sb)%nat ->
  sized (get_cash a) (getvalue a) (RSI_Strat.position_size pr)
    (RSI_Strat.close br) (RSI_Strat.calculate_position_size pr a br sr) /\
  sized (get_cash a) (getvalue a) (Bol_Strat.position_size pb)
    (Bol_Strat.close bb) (Bol_Strat.calculate_position_size pb a bb sb).
Proof.
  intros Hr Hb. split.
  - unfold RSI_Strat.calculate_position_size. cbv zeta.
    destruct (String.eqb _ _); [|apply (fixed_sized _ _ _ _ []); reflexivity].
    destruct (_ <=? _)%nat eqn:Em;
      [|apply fixed_sized; apply LifecycleFacts.submitted_log_if].
    apply Nat.leb_le in Em.
    destruct (stats_divide (TradeHistory.wins (RSI_Strat.history sr))
                (TradeHistory.losses (RSI_Strat.history sr)))
      as [w [aw [al [E1 [E2 E3]]]]]; [lia|].
    rewrite E1. cbn [bind]. rewrite E2. cbn [bind]. rewrite E3. cbn [bind].
    destruct (KellyEdge.kelly_in_range w aw al 1
                (RSI_Strat.kelly_fraction pr)) as [k [Ek [Hk0 Hk1]]]; [lra|].
    rewrite Ek. cbn [bind].
    apply kelly_sized; try assumption;
      apply LifecycleFacts.submitted_log_if.
  - unfold Bol_Strat.calculate_position_size. cbv zeta.
    destruct (String.eqb _ _); [|apply (fixed_sized _ _ _ _ []); reflexivity].
    destruct (_ <=? _)%nat eqn:Em;
      [|apply (fixed_sized _ _ _ _ []); reflexivity].
    apply Nat.leb_le in Em.
    destruct (stats_divide (TradeHistory.wins (Bol_Strat.history sb))
                (TradeHistory.losses (Bol_Strat.history sb)))
      as [w [aw [al [E1 [E2 E3]]]]]; [lia|].
    rewrite E1. cbn [bind]. rewrite E2. cbn [bind]. rewrite E3. cbn [bind].
    destruct (KellyEdge.kelly_in_range w aw al 1
                (Bol_Strat.kelly_fraction pb)) as [k [Ek [Hk0 Hk1]]]; [lra|].
    rewrite Ek. cbn [bind].
    apply kelly_sized; try assumption;
      apply LifecycleFacts.submitted_log_if.
Qed.

(** [calculate_position_size] of [RSI_Strat] and of [Bol_Strat] raises
    [ZeroDivisionError] exactly when the closing price is zero: with the
    threshold of 20 trades in place the statistics never divide by zero.
    The size it returns is the fixed fraction of cash over the price, or,
    when Kelly sizing applies, a fraction [kf] of the portfolio value over
    the price with [0 < kf <= 1]: Kelly sizing never commits more than the
    portfolio value. *)
Theorem position_size_outcome
    (pr : RSI_Strat.Params) (pb : Bol_Strat.Params) (a : Account)
    (br : RSI_Strat.Bar) (bb : Bol_Strat.Bar)
    (sr : RSI_Strat.State) (sb : Bol_Strat.State) :
  (0 < RSI_Strat.min_trades_for_kelly sr)%nat ->
  (0 < Bol_Strat.min_trades_for_kelly sb)%nat ->
  sized (get_cash a) (getvalue a) (RSI_Strat.position_size pr)
    (RSI_Strat.close br) (RSI_Strat.calculate_position_size pr a br sr) /\
  sized (get_cash a) (getvalue a) (Bol_Strat.position_size pb)
    (Bol_Strat.close bb) (Bol_Strat.calculate_position_size pb a bb sb).
Proof.
  exact (sizes_sized pr pb a br bb sr sb).
Qed.

Lemma position_size_outcome_witness :
  (0 < RSI_Strat.min_trades_for_kelly
         (rsi_after Cases.rsi_kelly (Cases.losing_trades 25)))%nat /\
  (0 < Bol_Strat.min_trades_for_kelly Bol_Strat.init)%nat /\
  sized 1000 1000 (2 # 100) 100
    (RSI_Strat.calculate_position_size Cases.rsi_kelly Cases.flat_1000
       Scenario.oversold (rsi_after Cases.rsi_kelly (Cases.losing_trades 25))).
Proof.
  assert (H1 : (0 < RSI_Strat.min_trades_for_kelly
                     (rsi_after Cases.rsi_kelly (Cases.losing_trades 25)))%nat)
    by (vm_compute; lia).
  assert (H2 : (0 < Bol_Strat.min_trades_for_kelly Bol_Strat.init)%nat)
    by (vm_compute; lia).
  split; [exact H1|]. split; [exact H2|].
  exact (proj1 (position_size_outcome Cases.rsi_kelly Cases.bol_kelly
                  Cases.flat_1000 Scenario.oversold Cases.bol_bar
                  (rsi_after Cases.rsi_kelly (Cases.losing_trades 25))
                  Bol_Strat.init H1 H2)).
Defined.

(** The bar handlers raise only on an entry at a zero price.  With a
    non-zero close, or in position, [next] of each of the three strategies
    returns. *)
Theorem next_returns_at_nonzero_price
    (pr : RSI_Strat.Params) (pb : Bol_Strat.Params)
    (R : PyRandom.Generator) (pd : Rand_Strat.Params) (a : Account) :
  (forall b self,
     (0 < RSI_Strat.min_trades_for_kelly self)%nat ->
     ~ RSI_Strat.close b == 0 \/ flat a = false ->
     exists self' evs, RSI_Strat.next pr a b self = Ok (self', evs)) /\
  (forall b self,
     (0 < Bol_Strat.min_trades_for_kelly self)%nat ->
     ~ Bol_Strat.close b == 0 \/ flat a = false ->
     exists self' evs, Bol_Strat.next pb a b self = Ok (self', evs)) /\
  (forall b self g,
     ~ Rand_Strat.close b == 0 \/ flat a = false ->
     exists self' g' evs,
       Rand_Strat.next R pd a b self g = Ok (self', g', evs)).
Proof.
  split; [|split].
  - intros b self Hm Hc. unfold RSI_Strat.next.
    destruct (RSI_Strat.order self); [do 2 eexists; reflexivity|].
    destruct (flat a).
    + destruct Hc as [Hc | Hc]; [|discriminate Hc].
      destruct (ltb _ _); [|do 2 eexists; reflexivity].
      assert (Hb0 : (0 < Bol_Strat.min_trades_for_kelly Bol_Strat.init)%nat)
        by (cbn; lia).
      destruct (proj2 (proj1 (sizes_sized pr pb a b
                                {| Bol_Strat.close := 0; Bol_Strat.bb_top := 0;
                                   Bol_Strat.bb_mid := 0; Bol_Strat.bb_bot := 0 |}
                                self Bol_Strat.init Hm Hb0)) Hc)
        as [size [logs [E _]]].
      rewrite E. cbn [bind]. destruct (buy size). do 2 eexists. reflexivity.
    + destruct (ltb _ _); [destruct (sell (position a))|];
        do 2 eexists; reflexivity.
  - intros b self Hm Hc. unfold Bol_Strat.next.
    destruct (Bol_Strat.order self); [do 2 eexists; reflexivity|].
    destruct (flat a).
    + destruct Hc as [Hc | Hc]; [|discriminate Hc].
      destruct (ltb _ _); [|do 2 eexists; reflexivity].
      assert (Hr0 : (0 < RSI_Strat.min_trades_for_kelly RSI_Strat.init)%nat)
        by (cbn; lia).
      destruct (proj2 (proj2 (sizes_sized pr pb a
                                {| RSI_Strat.close := 0; RSI_Strat.rsi := 0 |}
                                b RSI_Strat.init self Hr0 Hm)) Hc)
        as [size [logs [E _]]].
      rewrite E. cbn [bind]. destruct (buy size). do 2 eexists. reflexivity.
    + destruct (Bol_Strat.exit_check pb b self) as [should_exit reason].
      destruct should_exit; [destruct (sell (position a))|];
        do 2 eexists; reflexivity.
  - intros b self g Hc. unfold Rand_Strat.next.
    destruct (Rand_Strat.order self); [do 3 eexists; reflexivity|].
    destruct (PyRandom.random R g) as [u g1].
    destruct (negb (ltb u _)); [do 3 eexists; reflexivity|].
    destruct (flat a).
    + destruct Hc as [Hc | Hc]; [|discriminate Hc].
      rewrite KellyFacts.div_ok by exact Hc. cbn [bind].
      destruct (buy _). do 3 eexists. reflexivity.
    + cbn [negb]. destruct (_ <=? _)%Z; [destruct (sell (position a))|];
        do 3 eexists; reflexivity.
Qed.

Lemma next_returns_at_nonzero_price_witness :
  (0 < RSI_Strat.min_trades_for_kelly RSI_Strat.init)%nat /\
  ~ RSI_Strat.close Scenario.oversold == 0 /\
  exists self' evs,
    RSI_Strat.next Cases.rsi_kelly Cases.flat_1000 Scenario.oversold
      RSI_Strat.init = Ok (self', evs).
Proof.
  assert (H1 : (0 < RSI_Strat.min_trades_for_kelly RSI_Strat.init)%nat)
    by (cbn; lia).
  assert (H2 : ~ RSI_Strat.close Scenario.oversold == 0) by discriminate.
  split; [exact H1|]. split; [exact H2|].
  exact (proj1 (next_returns_at_nonzero_price Cases.rsi_kelly Cases.bol_kelly
                  Cases.zeros Cases.eager Cases.flat_1000)
           Scenario.oversold RSI_Strat.init H1 (or_introl H2)).
Defined.

End SizingFacts.

(* ------------------------------------------------------------------------- *)
(** ** More on [AdaptivePositionSizer._getsizing] *)
(* ------------------------------------------------------------------------- *)

Module SizerBounds.
Import Py PyFacts Bt PositionSizer AdaptivePositionSizer.




(** With Kelly sizing active and a history that holds losses only, the
    Kelly value is 0 and the clamp lifts it: the sizer still buys, at
    [min_position] of the portfolio. *)
Theorem sizer_floor_without_wins (p : Params) (self : State) :
  method p = "kelly"%string ->
  (min_trades p
   <= Z.of_nat (length (TradeHistory.wins self)
                + length (TradeHistory.losses self)))%Z ->
  TradeHistory.wins self = [] ->
  TradeHistory.losses self <> [] ->
  0 <= min_position p -> 0 <= max_position p ->
  position_fraction p self = Ok (min_position p).
Proof.
  intros Hm Ht Hw Hl Hmin Hmax. unfold position_fraction. cbv zeta.
  rewrite Hm, String.eqb_refl. apply Z.leb_le in Ht. rewrite Ht.
  cbn [andb]. rewrite Hw. cbn [length Nat.add].
  destruct (TradeHistory.losses self) as [|l ls]; [contradiction|].
  replace (0 <? length (l :: ls))%nat with true by reflexivity.
  rewrite KellyFacts.div_ok
    by (apply SizerFacts.count_nonzero; reflexivity).
  cbn [bind].
  rewrite (KellyFacts.div_ok _ _ (SizerFacts.len_cons_nonzero _ _)).
  cbn [bind].
  rewrite KellyFacts.no_edge_zero.
  - cbn [bind]. unfold max, min.
    replace (ltb (max_position p) 0) with false
      by (symmetry; apply ltb_false; exact Hmax).
    replace (ltb (min_position p) 0) with false
      by (symmetry; apply ltb_false; exact Hmin).
    reflexivity.
  - right. right. right. right. unfold len. cbn [length Z.of_nat].
    unfold Qdiv. ring.
Qed.

Lemma sizer_floor_without_wins_witness :
  TradeHistory.wins (Feed.sizer (Cases.losing_trades 25)) = [] /\
  position_fraction default_params (Feed.sizer (Cases.losing_trades 25))
  = Ok (5 # 100).
Proof.
  assert (H1 : method default_params = "kelly"%string) by reflexivity.
  assert (H2 : (min_trades default_params
                <= Z.of_nat
                     (length (TradeHistory.wins
                                (Feed.sizer (Cases.losing_trades 25)))
                      + length (TradeHistory.losses
                                  (Feed.sizer (Cases.losing_trades 25)))))%Z)
    by (vm_compute; discriminate).
  assert (H3 : TradeHistory.wins (Feed.sizer (Cases.losing_trades 25)) = [])
    by reflexivity.
  assert (H4 : TradeHistory.losses (Feed.sizer (Cases.losing_trades 25)) <> [])
    by (vm_compute; discriminate).
  assert (H5 : 0 <= min_position default_params) by discriminate.
  assert (H6 : 0 <= max_position default_params) by discriminate.
  split; [exact H3|].
  exact (sizer_floor_without_wins default_params
           (Feed.sizer (Cases.losing_trades 25)) H1 H2 H3 H4 H5 H6).
Defined.

End SizerBounds.

(* ------------------------------------------------------------------------- *)
(** ** The exit rule of [Bol_Strat] *)
(* ------------------------------------------------------------------------- *)

Module BolExit.
Import Py PyFacts Bt Bol_Strat Conduct.

(** When [exit_check] asks for an exit. *)
Lemma exit_check_fires (p : Params) (b : Bar) (self : State) :
  fst (exit_check p b self) = true <->
  bb_top b < close b \/
  (exit_on_middle p = true /\ bb_mid b < close b) \/
  (armed (stop_loss_pct p) (entry_price self) = true /\
   close b < val (entry_price self) * (1 - val (stop_loss_pct p) / 100)) \/
  (armed (stop_loss_pct p) (entry_price self) = false /\
   armed (take_profit_pct p) (entry_price self) = true /\
   val (entry_price self) * (1 + val (take_profit_pct p) / 100) < close b).
Proof.
  unfold exit_check, armed.
  destruct (ltb (bb_top b) (close b)) eqn:E1.
  { apply ltb_true in E1. cbn [fst]. split; [intros _; left; exact E1 | auto]. }
  apply ltb_false in E1.
  destruct (exit_on_middle p) eqn:Em; cbn [andb].
  - destruct (ltb (bb_mid b) (close b)) eqn:E2.
    { apply ltb_true in E2. cbn [fst].
      split; [intros _; right; left; split; [reflexivity | exact E2] | auto]. }
    apply ltb_false in E2.
    destruct (truthy (stop_loss_pct p) && truthy (entry_price self)).
    + destruct (ltb (close b) _) eqn:E3; cbn [fst].
      * apply ltb_true in E3. split; [intros _|auto].
        right. right. left. split; [reflexivity | exact E3].
      * apply ltb_false in E3. split; [discriminate|].
        intros [H | [[_ H] | [[_ H] | [H _]]]];
          try discriminate H; exfalso; lra.
    + destruct (truthy (take_profit_pct p) && truthy (entry_price self)).
      * destruct (ltb _ (close b)) eqn:E4; cbn [fst].
        -- apply ltb_true in E4. split; [intros _|auto].
           right. right. right. repeat split. exact E4.
        -- apply ltb_false in E4. split; [discriminate|].
           intros [H | [[_ H] | [[H _] | [_ [_ H]]]]];
             try discriminate H; exfalso; lra.
      * cbn [fst]. split; [discriminate|].
        intros [H | [[_ H] | [[H _] | [_ [H _]]]]];
          try discriminate H; exfalso; lra.
  - destruct (truthy (stop_loss_pct p) && truthy (entry_price self)).
    + destruct (ltb (close b) _) eqn:E3; cbn [fst].
      * apply ltb_true in E3. split; [intros _|auto].
        right. right. left. split; [reflexivity | exact E3].
      * apply ltb_false in E3. split; [discriminate|].
        intros [H | [[H _] | [[_ H] | [H _]]]];
          try discriminate H; exfalso; lra.
    + destruct (truthy (take_profit_pct p) && truthy (entry_price self)).
      * destruct (ltb _ (close b)) eqn:E4; cbn [fst].
        -- apply ltb_true in E4. split; [intros _|auto].
           right. right. right. repeat split. exact E4.
        -- apply ltb_false in E4. split; [discriminate|].
           intros [H | [[H _] | [[H _] | [_ [_ H]]]]];
             try discriminate H; exfalso; lra.
      * cbn [fst]. split; [discriminate|].
        intros [H | [[H _] | [[H _] | [_ [H _]]]]];
          try discriminate H; exfalso; lra.
Qed.

(** The exit rule of the band strategy.  In position with no order pending,
    [next] does not raise; it submits either nothing or one sell order for
    the whole position, and it sells exactly when the close is above the
    upper band, or above the middle band with [exit_on_middle], or under the
    stop price with the stop loss in force, or above the target price with
    the take profit in force and the stop loss not in force. *)
Theorem bol_exit_rule (p : Params) (a : Account) (b : Bar) (self : State) :
  order self = None -> flat a = false ->
  exists self' evs,
    next p a b self = Ok (self', evs) /\
    (submitted evs = [] \/
     submitted evs = [{| h_side := Sell; h_size := abs (position a) |}]) /\
    (submitted evs <> [] <->
     bb_top b < close b \/
     (exit_on_middle p = true /\ bb_mid b < close b) \/
     (armed (stop_loss_pct p) (entry_price self) = true /\
      close b < val (entry_price self) * (1 - val (stop_loss_pct p) / 100)) \/
     (armed (stop_loss_pct p) (entry_price self) = false /\
      armed (take_profit_pct p) (entry_price self) = true /\
      val (entry_price self) * (1 + val (take_profit_pct p) / 100) < close b)).
Proof.
  intros Ho Hf. assert (Hx := exit_check_fires p b self).
  unfold next. rewrite Ho, Hf.
  destruct (exit_check p b self) as [should_exit reason]. cbn [fst] in Hx.
  destruct should_exit.
  - unfold sell, place. unfold flat in Hf. rewrite Hf.
    do 2 eexists. split; [reflexivity|].
    rewrite LifecycleFacts.submitted_app, LifecycleFacts.submitted_log_if.
    cbn [submitted app]. split; [right; reflexivity|].
    split; [intros _; apply Hx; reflexivity | discriminate].
  - do 2 eexists. split; [reflexivity|]. cbn [submitted].
    split; [left; reflexivity|].
    split; [intro H; contradiction | intro H; apply Hx in H; discriminate H].
Qed.

Lemma bol_exit_rule_witness :
  order Scenario.long_at_100 = None /\
  flat Scenario.holding_one = false /\
  exists self' evs,
    next Scenario.take_profit_only Scenario.holding_one Scenario.close_120
      Scenario.long_at_100 = Ok (self', evs) /\
    submitted evs <> [].
Proof.
  assert (H1 : order Scenario.long_at_100 = None) by reflexivity.
  assert (H2 : flat Scenario.holding_one = false) by reflexivity.
  split; [exact H1|]. split; [exact H2|].
  destruct (bol_exit_rule Scenario.take_profit_only Scenario.holding_one
              Scenario.close_120 Scenario.long_at_100 H1 H2)
    as [self' [evs [E [_ Hiff]]]].
  exists self', evs. split; [exact E|].
  apply Hiff. right. right. right.
  split; [reflexivity|]. split; reflexivity.
Defined.

End BolExit.
